(** * Risk-Policy-Analytics-Dashboard: risk scoring, reserves and stress tests

    A shallow embedding of the computational core of
    [01_Python_Scripts/reserve_monitoring.py] (class [ReserveMonitoring]) and of
    the risk scorer of [01_Python_Scripts/data_etl_analysis.py]
    (class [InsuranceAnalytics]).

    Numbers.  The numeric columns of the data frame are numpy [float64]
    columns.  A cell is modelled as a value of [float64] below: a missing value
    or undefined result ([NaN]), one of the two infinities, or a finite number.
    Finite numbers are rationals and finite arithmetic is exact: binary
    rounding, overflow and the sign of zero are not represented.  What is
    represented is everything the ratio computations of the scripts rely on:
    [x / 0] is an infinity, [0 / 0] is [NaN], comparisons with [NaN] are
    false, and [sum], [count], [max] and [fillna] treat [NaN] as pandas does.
    The statements proved are about orderings, guards and the relations
    between the cells of one result; where a statement equates totals taken
    along different paths, its hypotheses keep the numbers integral. *)

From Stdlib Require Import ZArith QArith Qround Lqa Lia List String Bool.
From Stdlib Require Import Permutation.
Import ListNotations.

Local Open Scope Q_scope.

(** ** float64 cells *)

Module F64.

Inductive float64 : Type :=
| NaN
| NegInf
| PosInf
| Fin (q : Q).

Definition Qlt_bool (x y : Q) : bool := negb (Qle_bool y x).

(** Sign of a finite number: [Lt] negative, [Eq] zero, [Gt] positive. *)
Definition Qsgn (x : Q) : comparison := x ?= 0.

Definition isnan (a : float64) : bool :=
  match a with NaN => true | _ => false end.

Definition notnan (a : float64) : bool := negb (isnan a).

(** [a < b]; false as soon as one side is [NaN]. *)
Definition flt (a b : float64) : bool :=
  match a, b with
  | NaN, _ | _, NaN => false
  | Fin x, Fin y => Qlt_bool x y
  | NegInf, NegInf => false
  | NegInf, _ => true
  | _, NegInf => false
  | PosInf, _ => false
  | Fin _, PosInf => true
  end.

(** [a <= b]; false as soon as one side is [NaN]. *)
Definition fle (a b : float64) : bool :=
  match a, b with
  | NaN, _ | _, NaN => false
  | Fin x, Fin y => Qle_bool x y
  | NegInf, _ => true
  | _, PosInf => true
  | _, NegInf => false
  | PosInf, Fin _ => false
  end.

Definition fgt (a b : float64) : bool := flt b a.
Definition fge (a b : float64) : bool := fle b a.

Definition fneg (a : float64) : float64 :=
  match a with
  | NaN => NaN
  | NegInf => PosInf
  | PosInf => NegInf
  | Fin x => Fin (- x)
  end.

Definition fadd (a b : float64) : float64 :=
  match a, b with
  | NaN, _ | _, NaN => NaN
  | Fin x, Fin y => Fin (x + y)
  | PosInf, NegInf | NegInf, PosInf => NaN
  | PosInf, _ | _, PosInf => PosInf
  | NegInf, _ | _, NegInf => NegInf
  end.

Definition fsub (a b : float64) : float64 := fadd a (fneg b).

(** An infinity with the sign given by [s]; [NaN] for a zero sign. *)
Definition inf_of_sign (s : comparison) : float64 :=
  match s with Gt => PosInf | Lt => NegInf | Eq => NaN end.

Definition sign_of (a : float64) : comparison :=
  match a with
  | NaN => Eq
  | PosInf => Gt
  | NegInf => Lt
  | Fin x => Qsgn x
  end.

Definition sign_mul (s t : comparison) : comparison :=
  match s, t with
  | Eq, _ | _, Eq => Eq
  | Gt, Gt | Lt, Lt => Gt
  | _, _ => Lt
  end.

Definition fmul (a b : float64) : float64 :=
  match a, b with
  | NaN, _ | _, NaN => NaN
  | Fin x, Fin y => Fin (x * y)
  | _, _ => inf_of_sign (sign_mul (sign_of a) (sign_of b))
  end.

(** Division as numpy performs it on [float64]: no exception is raised, a
    nonzero number over zero is an infinity and zero over zero is [NaN]. *)
Definition fdiv (a b : float64) : float64 :=
  match a, b with
  | NaN, _ | _, NaN => NaN
  | Fin x, Fin y =>
      if Qeq_bool y 0 then inf_of_sign (Qsgn x) else Fin (x / y)
  | Fin _, _ => Fin 0
  | _, Fin y =>
      match Qsgn y with
      | Lt => fneg a
      | _ => a
      end
  | _, _ => NaN
  end.

(** [Series.fillna(v)] on one cell. *)
Definition fillna (a v : float64) : float64 :=
  if isnan a then v else a.

(** [Series.sum()]: missing values are skipped, the empty sum is 0. *)
Definition nansum (l : list float64) : float64 :=
  fold_left fadd (filter notnan l) (Fin 0).

(** [Series.count()]: the number of cells that are not missing. *)
Definition count (l : list float64) : Z :=
  Z.of_nat (List.length (filter notnan l)).

(** [Series.mean()]: mean of the cells that are not missing. *)
Definition nanmean (l : list float64) : float64 :=
  fdiv (nansum l) (Fin (inject_Z (count l))).

Definition fmax (a b : float64) : float64 := if flt a b then b else a.

(** [DataFrame.max(axis=1)] over the cells of one row: missing values are
    skipped, and the result is missing when every cell is. *)
Definition nanmax (l : list float64) : float64 :=
  match filter notnan l with
  | [] => NaN
  | x :: xs => fold_left fmax xs x
  end.

(** Round half to even, as [numpy.rint]. *)
Definition rint (q : Q) : Z :=
  let f := Qfloor q in
  match ((q - inject_Z f) ?= (1 # 2))%Q with
  | Lt => f
  | Gt => (f + 1)%Z
  | Eq => if Z.even f then f else (f + 1)%Z
  end.

(** [DataFrame.round(2)] on one cell. *)
Definition round2 (a : float64) : float64 :=
  match a with
  | Fin q => Fin (inject_Z (rint (q * 100)) / 100)
  | _ => a
  end.

(** Equality of cells as numbers ([NaN] is only used here to say that two
    computations produce the same cell). *)
Definition feq (a b : float64) : Prop :=
  match a, b with
  | Fin x, Fin y => x == y
  | NaN, NaN | PosInf, PosInf | NegInf, NegInf => True
  | _, _ => False
  end.

End F64.

Export F64.

Declare Scope f64_scope.
Delimit Scope f64_scope with f64.
Infix "<?" := flt : f64_scope.
Infix "<=?" := fle : f64_scope.
Infix ">?" := fgt : f64_scope.
Infix ">=?" := fge : f64_scope.
Infix "*" := fmul : f64_scope.
Infix "/" := fdiv : f64_scope.
Infix "-" := fsub : f64_scope.
Infix "+" := fadd : f64_scope.
Infix "==" := feq : f64_scope.

(** An integer literal of the scripts, converted to [float64]. *)
Definition lit (z : Z) : float64 := Fin (inject_Z z).

(** A decimal literal [n / d] of the scripts. *)
Definition dec (n : Z) (d : positive) : float64 := Fin (n # d).

(** ** Rows *)

(** The columns of one policy record that the computations read.  A text cell
    is [None] when the value is missing. *)
Record Row : Type := mkRow {
  Age : float64;
  Previous_Claims : float64;
  Health_Score : float64;
  Credit_Score : float64;
  Smoking_Status : option string;
  Exercise_Frequency : option string;
  Premium_Amount : float64
}.

(** [row[col] == 'text'] on a text cell; a missing cell equals no text. *)
Definition str_eq (c : option string) (s : string) : bool :=
  match c with
  | Some t => String.eqb t s
  | None => false
  end.

Inductive RiskCategory : Type := Low | Medium | High | Very_High.

Definition RiskCategory_eqb (a b : RiskCategory) : bool :=
  match a, b with
  | Low, Low | Medium, Medium | High, High | Very_High, Very_High => true
  | _, _ => false
  end.

(** The label of a category, as the scripts spell it. *)
Definition label (c : RiskCategory) : string :=
  match c with
  | Low => "Low"
  | Medium => "Medium"
  | High => "High"
  | Very_High => "Very High"
  end.

(** Position of a category on the scale Low < Medium < High < Very High. *)
Definition rank (c : RiskCategory) : Z :=
  match c with
  | Low => 0
  | Medium => 1
  | High => 2
  | Very_High => 3
  end.

(** A Python [dict] with text keys, and [dict.get(key, default)]. *)
Fixpoint dict_get {V : Type} (d : list (string * V)) (key : string) (default : V) : V :=
  match d with
  | [] => default
  | (k, v) :: rest => if String.eqb k key then v else dict_get rest key default
  end.

(** ** reserve_monitoring.py, class ReserveMonitoring *)

Module ReserveMonitoring.

Local Open Scope f64_scope.
Local Open Scope Z_scope.

(** Body of the loop of [_calculate_risk_score] for one row. *)
Definition score_row (row : Row) : Z :=
  let score := 0 in
  (* Age factor *)
  let score :=
    if (Age row <? lit 25)%f64 || (Age row >? lit 65)%f64 then score + 2
    else if (lit 25 <=? Age row)%f64 && (Age row <=? lit 35)%f64 then score + 1
    else score in
  (* Claims history *)
  let score :=
    if (Previous_Claims row >? lit 2)%f64 then score + 3
    else if (Previous_Claims row >? lit 0)%f64 then score + 1
    else score in
  (* Health score *)
  let score :=
    if (Health_Score row <? lit 20)%f64 then score + 2
    else if (Health_Score row <? lit 40)%f64 then score + 1
    else score in
  (* Credit score *)
  let score :=
    if (Credit_Score row <? lit 500)%f64 then score + 2
    else if (Credit_Score row <? lit 650)%f64 then score + 1
    else score in
  (* Smoking status *)
  let score :=
    if str_eq (Smoking_Status row) "Yes" then score + 2 else score in
  (* Exercise frequency *)
  let score :=
    if str_eq (Exercise_Frequency row) "Rarely" then score + 1 else score in
  score.

Definition _calculate_risk_score (df : list Row) : list Z :=
  map score_row df.

Definition _categorize_risk (score : Z) : RiskCategory :=
  if score <=? 2 then Low
  else if score <=? 4 then Medium
  else if score <=? 6 then High
  else Very_High.

(** A row of [self.df] once [load_and_prepare_data] has added its columns. *)
Record PolicyRow : Type := mkPolicyRow {
  policy : Row;
  Risk_Score : Z;
  Risk_Category : RiskCategory;
  Loss_Ratio : float64
}.

(** [df['Previous Claims'] = df['Previous Claims'].fillna(0)].  The median
    imputation of Age, Health Score and Credit Score is not modelled: these
    cells are arbitrary, [NaN] included (the median of an empty column). *)
Definition fill_missing (row : Row) : Row :=
  mkRow (Age row) (fillna (Previous_Claims row) (lit 0)) (Health_Score row)
        (Credit_Score row) (Smoking_Status row) (Exercise_Frequency row)
        (Premium_Amount row).

(** The 'Loss Ratio' cell of one row, lines 49-50. *)
Definition loss_ratio (row : Row) : float64 :=
  let ratio := ((Previous_Claims row * lit 1000) / Premium_Amount row)%f64 in
  fillna ratio (lit 0).

Definition load_and_prepare_data (raw : list Row) : list PolicyRow :=
  let df := map fill_missing raw in
  let scores := _calculate_risk_score df in
  map (fun rs : Row * Z =>
         let (row, score) := rs in
         mkPolicyRow row score (_categorize_risk score) (loss_ratio row))
      (combine df scores).

(** One row of [reserve_analysis].  The 'Avg Duration' column, which depends
    on the current date, is left out. *)
Record ReserveRow : Type := mkReserveRow {
  Category : RiskCategory;
  Total_Premiums : float64;
  Avg_Premium : float64;
  Policy_Count : Z;
  Total_Claims : float64;
  Avg_Loss_Ratio : float64;
  Premium_Based_Reserves : float64;
  Claims_Based_Reserves : float64;
  Risk_Adjusted_Reserves : float64;
  IBNR_Reserves : float64;
  Total_Required_Reserves : float64;
  Actual_Claims_Exposure : float64;
  Reserve_Adequacy : float64;
  Reserve_Ratio : float64
}.

(** Group keys in the order [groupby] lists them: sorted labels. *)
Definition sorted_categories : list RiskCategory := [High; Low; Medium; Very_High].

Definition is_empty {A : Type} (l : list A) : bool :=
  match l with [] => true | _ => false end.

(** [df.groupby('Risk Category')]: one group per category that occurs in the
    frame, in sorted order, each with its rows in frame order. *)
Definition groupby_risk (df : list PolicyRow) : list (RiskCategory * list PolicyRow) :=
  filter (fun g => negb (is_empty (snd g)))
         (map (fun c => (c, filter (fun r => RiskCategory_eqb (Risk_Category r) c) df))
              sorted_categories).

Definition premiums (rows : list PolicyRow) : list float64 :=
  map (fun r => Premium_Amount (policy r)) rows.

Definition claims (rows : list PolicyRow) : list float64 :=
  map (fun r => Previous_Claims (policy r)) rows.

Definition risk_multipliers : list (string * float64) :=
  [("Low"%string, dec 10 100); ("Medium"%string, dec 15 100);
   ("High"%string, dec 25 100); ("Very High"%string, dec 35 100)].

(** The reserve row of one group: the aggregation of lines 123-131 followed by
    the derived columns of lines 133-166. *)
Definition reserve_row (g : RiskCategory * list PolicyRow) : ReserveRow :=
  let (cat, rows) := g in
  let total_premiums := round2 (nansum (premiums rows)) in
  let avg_premium := round2 (nanmean (premiums rows)) in
  let policy_count := count (premiums rows) in
  let total_claims := round2 (nansum (claims rows)) in
  let avg_loss_ratio := round2 (nanmean (map Loss_Ratio rows)) in
  let premium_based := (total_premiums * dec 15 100)%f64 in
  let claims_based := ((total_claims * lit 1000) * lit 3)%f64 in
  let risk_adjusted :=
    (total_premiums * dict_get risk_multipliers (label cat) (dec 15 100))%f64 in
  let ibnr := (total_premiums * dec 5 100)%f64 in
  let total_required := nanmax [premium_based; claims_based; risk_adjusted; ibnr] in
  let actual_exposure := (total_claims * lit 1000)%f64 in
  let adequacy := (total_required - actual_exposure)%f64 in
  let ratio := (total_required / actual_exposure)%f64 in
  mkReserveRow cat total_premiums avg_premium policy_count total_claims
               avg_loss_ratio premium_based claims_based risk_adjusted ibnr
               total_required actual_exposure adequacy ratio.

(** For a frame without rows the embedding yields no reserve row; how pandas
    evaluates the row-wise [apply] of line 143 on an empty frame is not
    modelled. *)
Definition calculate_reserve_requirements (df : list PolicyRow) : list ReserveRow :=
  map reserve_row (groupby_risk df).

(** [base_metrics] of [perform_stress_testing]. *)
Record BaseMetrics : Type := mkBaseMetrics {
  total_premiums : float64;
  total_claims : float64;
  total_policies : Z;
  avg_loss_ratio : float64
}.

Definition base_metrics (df : list PolicyRow) : BaseMetrics :=
  mkBaseMetrics (nansum (premiums df)) (nansum (claims df))
                (Z.of_nat (List.length df)) (nanmean (map Loss_Ratio df)).

Record Scenario : Type := mkScenario {
  scenario_name : string;
  claims_multiplier : float64;
  premium_multiplier : float64;
  description : string
}.

Definition scenarios : list Scenario :=
  [ mkScenario "Base Case" (dec 10 10) (dec 10 10) "Current baseline scenario";
    mkScenario "Mild Stress" (dec 12 10) (dec 10 10) "20% increase in claims frequency";
    mkScenario "Moderate Stress" (dec 15 10) (dec 10 10) "50% increase in claims frequency";
    mkScenario "Severe Stress" (dec 20 10) (dec 10 10) "100% increase in claims frequency";
    mkScenario "Economic Downturn" (dec 18 10) (dec 9 10)
               "Economic downturn with reduced premiums";
    mkScenario "Catastrophic Event" (dec 30 10) (dec 10 10) "Catastrophic event scenario" ].

Record StressResult : Type := mkStressResult {
  Scenario_Name : string;
  Description : string;
  Claims_Multiplier : float64;
  Premium_Multiplier : float64;
  Stressed_Premiums : float64;
  Stressed_Claims : float64;
  Stressed_Loss_Ratio : float64;
  Required_Reserves : float64;
  Stress_Claims_Exposure : float64;
  Capital_Adequacy : float64;
  Capital_Ratio : float64;
  Adequacy_Status : string
}.

(** Body of the loop of [perform_stress_testing] for one scenario. *)
Definition stress_scenario (base : BaseMetrics) (params : Scenario) : StressResult :=
  let stressed_claims := (total_claims base * claims_multiplier params)%f64 in
  let stressed_premiums := (total_premiums base * premium_multiplier params)%f64 in
  let stressed_loss_ratio := ((stressed_claims * lit 1000) / stressed_premiums)%f64 in
  let required_reserves := (stressed_premiums * dec 15 100)%f64 in
  let actual_claims_exposure := (stressed_claims * lit 1000)%f64 in
  let capital_adequacy := (required_reserves - actual_claims_exposure)%f64 in
  let capital_ratio :=
    if (actual_claims_exposure >? lit 0)%f64
    then (required_reserves / actual_claims_exposure)%f64
    else lit 0 in
  mkStressResult (scenario_name params) (description params)
                 (claims_multiplier params) (premium_multiplier params)
                 stressed_premiums stressed_claims stressed_loss_ratio
                 required_reserves actual_claims_exposure capital_adequacy
                 capital_ratio
                 (if (capital_adequacy >=? lit 0)%f64 then "Adequate" else "Inadequate").

Definition perform_stress_testing (df : list PolicyRow) : list StressResult :=
  map (stress_scenario (base_metrics df)) scenarios.

(** The dictionary returned by [calculate_capital_adequacy_ratio]. *)
Record CapitalRatios : Type := mkCapitalRatios {
  CR_Total_Required_Reserves : float64;
  CR_Total_Actual_Exposure : float64;
  CR_Total_Premiums : float64;
  Reserve_Coverage_Ratio : float64;
  Premium_Coverage_Ratio : float64;
  Overall_Adequacy : float64
}.

Definition calculate_capital_adequacy_ratio (reserve_analysis : list ReserveRow) : CapitalRatios :=
  let total_required_reserves := nansum (map Total_Required_Reserves reserve_analysis) in
  let total_actual_exposure := nansum (map Actual_Claims_Exposure reserve_analysis) in
  let total_premiums := nansum (map Total_Premiums reserve_analysis) in
  mkCapitalRatios total_required_reserves total_actual_exposure total_premiums
    (if (total_actual_exposure >? lit 0)%f64
     then (total_required_reserves / total_actual_exposure)%f64 else lit 0)
    (if (total_premiums >? lit 0)%f64
     then (total_required_reserves / total_premiums)%f64 else lit 0)
    (total_required_reserves - total_actual_exposure)%f64.

(** The sentence of the 'Recommendation' cell; the amount of the first one is
    [abs(adequacy)]. *)
Inductive Advice : Type :=
| Increase_reserves_by (amount : float64)
| Consider_increasing_by_20_percent
| Maintain_current_levels
| Immediate_increase_across_categories.

Definition fabs (a : float64) : float64 :=
  if (a <? lit 0)%f64 then fneg a else a.

(** One row of the frame returned by [generate_reserve_recommendations].  The
    'Current Adequacy' cell is kept as the number it displays. *)
Record Recommendation : Type := mkRecommendation {
  Rec_Risk_Category : string;
  Issue : string;
  Current_Adequacy : float64;
  Advice_Given : Advice;
  Priority : string
}.

(** Body of the loop of [generate_reserve_recommendations] for one row. *)
Definition recommend_row (row : ReserveRow) : Recommendation :=
  let category := label (Category row) in
  let adequacy := Reserve_Adequacy row in
  let ratio := Reserve_Ratio row in
  if (adequacy <? lit 0)%f64 then
    mkRecommendation category "Inadequate Reserves" adequacy
                     (Increase_reserves_by (fabs adequacy))
                     (if (ratio <? dec 5 10)%f64 then "High" else "Medium")
  else if (ratio <? dec 12 10)%f64 then
    mkRecommendation category "Low Reserve Buffer" adequacy
                     Consider_increasing_by_20_percent "Medium"
  else
    mkRecommendation category "Adequate Reserves" adequacy
                     Maintain_current_levels "Low".

Definition generate_reserve_recommendations (reserve_analysis : list ReserveRow)
  : list Recommendation :=
  let recommendations := map recommend_row reserve_analysis in
  let total_adequacy := nansum (map Reserve_Adequacy reserve_analysis) in
  if (total_adequacy <? lit 0)%f64 then
    recommendations
    ++ [mkRecommendation "Overall Portfolio" "Portfolio-wide Reserve Shortfall"
                         total_adequacy Immediate_increase_across_categories
                         "Critical"]
  else recommendations.

End ReserveMonitoring.

(** ** data_etl_analysis.py, class InsuranceAnalytics *)

Module InsuranceAnalytics.

Local Open Scope Z_scope.

(** Body of the loop of [_calculate_risk_category] for one row. *)
Definition category_row (row : Row) : RiskCategory :=
  let score := 0 in
  let score :=
    if (Age row <? lit 25)%f64 || (Age row >? lit 65)%f64 then score + 2
    else if (lit 25 <=? Age row)%f64 && (Age row <=? lit 35)%f64 then score + 1
    else score in
  let score :=
    if (Previous_Claims row >? lit 2)%f64 then score + 3
    else if (Previous_Claims row >? lit 0)%f64 then score + 1
    else score in
  let score :=
    if (Health_Score row <? lit 20)%f64 then score + 2
    else if (Health_Score row <? lit 40)%f64 then score + 1
    else score in
  let score :=
    if (Credit_Score row <? lit 500)%f64 then score + 2
    else if (Credit_Score row <? lit 650)%f64 then score + 1
    else score in
  let score :=
    if str_eq (Smoking_Status row) "Yes" then score + 2 else score in
  let score :=
    if str_eq (Exercise_Frequency row) "Rarely" then score + 1 else score in
  (* Determine risk category *)
  if score <=? 2 then Low
  else if score <=? 4 then Medium
  else if score <=? 6 then High
  else Very_High.

Definition _calculate_risk_category (df : list Row) : list RiskCategory :=
  map category_row df.

(** The 'Estimated Loss Ratio' cell of one row, lines 98-99. *)
Definition estimated_loss_ratio (row : Row) : float64 :=
  let ratio := ((Previous_Claims row * lit 1000) / Premium_Amount row)%f64 in
  fillna ratio (lit 0).

(** [pd.cut(x, bins, labels=labels)]: the label of the interval
    [(bins[i], bins[i+1]]] that holds [x], missing when there is none. *)
Fixpoint cut (bins : list float64) (labels : list string) (x : float64)
  : option string :=
  match bins, labels with
  | lo :: ((hi :: _) as rest), l :: labels' =>
      if (lo <? x)%f64 && (x <=? hi)%f64 then Some l else cut rest labels' x
  | _, _ => None
  end.

(** The 'Age Group' cell, lines 80-81. *)
Definition age_group (age : float64) : option string :=
  cut [lit 0; lit 25; lit 35; lit 45; lit 55; lit 65; lit 100]
      ["18-25"; "26-35"; "36-45"; "46-55"; "56-65"; "65+"]%string age.

(** The 'Income Group' cell, lines 84-85. *)
Definition income_group (annual_income : float64) : option string :=
  cut [lit 0; lit 30000; lit 60000; lit 100000; lit 200000; PosInf]
      ["Low"; "Lower-Mid"; "Mid"; "Upper-Mid"; "High"]%string annual_income.

(** The loss ratio of a set of rows, as [calculate_loss_ratios] computes it
    for the whole frame (lines 228-230) and for each group (lines 237-238). *)
Definition group_loss_ratio (x : list Row) : float64 :=
  if (nansum (map Premium_Amount x) >? lit 0)%f64
  then (nansum (map (fun r => (Previous_Claims r * lit 1000)%f64) x)
        / nansum (map Premium_Amount x))%f64
  else lit 0.

(** [calculate_loss_ratios] on the processed frame: the overall ratio and the
    ratios by 'Risk Category', one per category that occurs, in sorted order.
    The groupings by 'Policy Type', 'Location' and 'Age Group' are left out. *)
Definition calculate_loss_ratios (df : list Row)
  : float64 * list (RiskCategory * float64) :=
  let overall_loss_ratio := group_loss_ratio df in
  let groups :=
    filter (fun g : RiskCategory * list Row =>
              match snd g with [] => false | _ => true end)
           (map (fun c => (c, filter (fun r => RiskCategory_eqb (category_row r) c) df))
                [High; Low; Medium; Very_High]) in
  (overall_loss_ratio, map (fun g => (fst g, group_loss_ratio (snd g))) groups).

End InsuranceAnalytics.

(** ** The scoring rule as the specification words it *)

Module Spec.

Local Open Scope Z_scope.

(** age < 25 or age > 65 adds 2, 25 <= age <= 35 adds 1, otherwise 0. *)
Definition age_points (age : float64) : Z :=
  if (age <? lit 25)%f64 || (age >? lit 65)%f64 then 2
  else if (lit 25 <=? age)%f64 && (age <=? lit 35)%f64 then 1
  else 0.

(** previous_claims > 2 adds 3, previous_claims in (0,2] adds 1, otherwise 0. *)
Definition claims_points (previous_claims : float64) : Z :=
  if (previous_claims >? lit 2)%f64 then 3
  else if (lit 0 <? previous_claims)%f64 && (previous_claims <=? lit 2)%f64 then 1
  else 0.

(** health_score < 20 adds 2, health_score in [20,40) adds 1, otherwise 0. *)
Definition health_points (health_score : float64) : Z :=
  if (health_score <? lit 20)%f64 then 2
  else if (lit 20 <=? health_score)%f64 && (health_score <? lit 40)%f64 then 1
  else 0.

(** credit_score < 500 adds 2, credit_score in [500,650) adds 1, otherwise 0. *)
Definition credit_points (credit_score : float64) : Z :=
  if (credit_score <? lit 500)%f64 then 2
  else if (lit 500 <=? credit_score)%f64 && (credit_score <? lit 650)%f64 then 1
  else 0.

(** smoking_status = "Yes" adds 2. *)
Definition smoking_points (smoking_status : option string) : Z :=
  if str_eq smoking_status "Yes" then 2 else 0.

(** exercise_frequency = "Rarely" adds 1. *)
Definition exercise_points (exercise_frequency : option string) : Z :=
  if str_eq exercise_frequency "Rarely" then 1 else 0.

Definition risk_score (row : Row) : Z :=
  age_points (Age row) + claims_points (Previous_Claims row)
  + health_points (Health_Score row) + credit_points (Credit_Score row)
  + smoking_points (Smoking_Status row) + exercise_points (Exercise_Frequency row).

(** score <= 2 is Low, <= 4 Medium, <= 6 High, > 6 Very High. *)
Definition risk_category (score : Z) : RiskCategory :=
  if score <=? 2 then Low
  else if (2 <? score) && (score <=? 4) then Medium
  else if (4 <? score) && (score <=? 6) then High
  else Very_High.

(** The multiplier table of the risk-adjusted method, by category. *)
Definition multiplier (c : RiskCategory) : float64 :=
  match c with
  | Low => dec 10 100
  | Medium => dec 15 100
  | High => dec 25 100
  | Very_High => dec 35 100
  end.

End Spec.

(** A row with its 'Previous Claims' cell replaced. *)
Definition with_claims (row : Row) (c : float64) : Row :=
  mkRow (Age row) c (Health_Score row) (Credit_Score row)
        (Smoking_Status row) (Exercise_Frequency row) (Premium_Amount row).

(** [Series.sum()] of an integer column. *)
Definition zsum (l : list Z) : Z := fold_right Z.add 0%Z l.

(** A premium cell that is missing or a finite whole number of cents. *)
Definition whole_cents (a : float64) : Prop :=
  match a with
  | NaN => True
  | Fin q => exists z : Z, q == z # 100
  | _ => False
  end.

(** A cell that is missing or finite: no infinity was read from the input. *)
Definition finite_or_missing (a : float64) : Prop :=
  match a with
  | NaN | Fin _ => True
  | _ => False
  end.

(** The number held by a finite cell, 0 for the cells [sum] skips. *)
Definition qval (a : float64) : Q :=
  match a with
  | Fin q => q
  | _ => 0
  end.

Definition qsum (l : list float64) : Q :=
  fold_right (fun a s => qval a + s) 0 l.

(** A prepared frame whose premium and claims cells are missing or finite. *)
Definition clean (df : list ReserveMonitoring.PolicyRow) : Prop :=
  Forall (fun r =>
            finite_or_missing (Premium_Amount (ReserveMonitoring.policy r)) /\
            finite_or_missing (Previous_Claims (ReserveMonitoring.policy r)))
         df.

(** The four candidate reserve amounts of a reserve row. *)
Definition candidates (r : ReserveMonitoring.ReserveRow) : list float64 :=
  [ ReserveMonitoring.Premium_Based_Reserves r;
    ReserveMonitoring.Claims_Based_Reserves r;
    ReserveMonitoring.Risk_Adjusted_Reserves r;
    ReserveMonitoring.IBNR_Reserves r ].

(** The rows of a prepared frame that fall in one category. *)
Definition rows_of (c : RiskCategory) (df : list ReserveMonitoring.PolicyRow)
  : list ReserveMonitoring.PolicyRow :=
  filter (fun r => RiskCategory_eqb (ReserveMonitoring.Risk_Category r) c) df.

(** ** Sample rows and tables *)

(** A policy that collects every contribution of the scoring rule. *)
Definition riskiest_row : Row :=
  mkRow (lit 20) (lit 3) (lit 10) (lit 400) (Some "Yes"%string)
        (Some "Rarely"%string) (lit 1000).

(** A low-risk policy with the given claims and premium cells. *)
Definition plain_row (previous_claims premium : float64) : Row :=
  mkRow (lit 40) previous_claims (lit 50) (lit 700) (Some "No"%string)
        (Some "Weekly"%string) premium.

(** Three claims on a policy whose premium is 0. *)
Definition zero_premium_row : Row := plain_row (lit 3) (lit 0).

(** A portfolio of one policy without claims whose premium is 0. *)
Definition no_exposure_table : list Row := [plain_row (lit 0) (lit 0)].

(** Twenty low-risk policies: 100,000 of premiums and 40 claims in all. *)
Definition low_risk_table : list Row := repeat (plain_row (lit 2) (lit 5000)) 20.

(** Premiums 100.004 and 200.004 in two categories, and one missing premium. *)
Definition uneven_table : list Row :=
  [ plain_row (lit 0) (dec 100004 1000);
    mkRow (lit 20) (lit 3) (lit 10) (lit 400) (Some "Yes"%string)
          (Some "Rarely"%string) (dec 200004 1000);
    plain_row (lit 0) NaN ].

(** A portfolio with 1,000,000 of premiums and 300 claims. *)
Definition million_base : ReserveMonitoring.BaseMetrics :=
  ReserveMonitoring.mkBaseMetrics (lit 1000000) (lit 300) 1000 (dec 3 10).

(** ** Conditions on the input used by the further properties *)

(** A claims cell that is missing or a whole number, as a count is. *)
Definition whole_number (a : float64) : Prop :=
  match a with
  | NaN => True
  | Fin q => exists z : Z, q == inject_Z z
  | _ => False
  end.

(** A cell that is missing or a finite number that is not negative. *)
Definition nonneg_or_missing (a : float64) : Prop :=
  match a with
  | NaN => True
  | Fin q => 0 <= q
  | _ => False
  end.

(** A prepared frame whose claims cells are missing or not negative. *)
Definition nonneg_claims (df : list ReserveMonitoring.PolicyRow) : Prop :=
  Forall (fun r => nonneg_or_missing (Previous_Claims (ReserveMonitoring.policy r))) df.

(** A prepared frame whose premium cells are missing or not negative. *)
Definition nonneg_premiums (df : list ReserveMonitoring.PolicyRow) : Prop :=
  Forall (fun r => nonneg_or_missing (Premium_Amount (ReserveMonitoring.policy r))) df.

(** A row with its 'Health Score' cell replaced. *)
Definition with_health (row : Row) (h : float64) : Row :=
  mkRow (Age row) (Previous_Claims row) h (Credit_Score row)
        (Smoking_Status row) (Exercise_Frequency row) (Premium_Amount row).

(** A row with its 'Credit Score' cell replaced. *)
Definition with_credit (row : Row) (c : float64) : Row :=
  mkRow (Age row) (Previous_Claims row) (Health_Score row) c
        (Smoking_Status row) (Exercise_Frequency row) (Premium_Amount row).

(** A reserve row with finite totals whose required reserves cover three times
    its exposure: premiums [p], claims [k >= 0], required reserves [t]. *)
Definition covered_row (r : ReserveMonitoring.ReserveRow) : Prop :=
  exists p k t : Q,
    ReserveMonitoring.Total_Premiums r = Fin p /\
    ReserveMonitoring.Total_Claims r = Fin k /\
    0 <= k /\
    ReserveMonitoring.Total_Required_Reserves r = Fin t /\
    3 * (k * inject_Z 1000) <= t /\
    ReserveMonitoring.Actual_Claims_Exposure r = Fin (k * inject_Z 1000) /\
    ReserveMonitoring.Reserve_Adequacy r = Fin (t + - (k * inject_Z 1000)) /\
    ReserveMonitoring.Reserve_Ratio r
    = fdiv (Fin t) (Fin (k * inject_Z 1000)).

(** Four policies, one in each risk category. *)
Definition mixed_table : list Row :=
  [ plain_row (lit 1) (lit 1200);
    mkRow (lit 30) (lit 1) (lit 30) (lit 600) (Some "No"%string)
          (Some "Weekly"%string) (lit 900);
    mkRow (lit 70) (lit 3) (lit 50) (lit 700) (Some "No"%string)
          (Some "Weekly"%string) (lit 1500);
    riskiest_row ].

(** * Facts about float64 cells *)

Section OrderFacts.

Lemma Qlt_bool_iff (x y : Q) : Qlt_bool x y = true <-> x < y.
Proof.
  unfold Qlt_bool. rewrite negb_true_iff. split.
  - intro H. apply Qnot_le_lt. intro L.
    apply Qle_bool_iff in L. congruence.
  - intro H. destruct (Qle_bool y x) eqn:E; [| reflexivity].
    apply Qle_bool_iff in E. lra.
Qed.

Lemma Qlt_bool_false_iff (x y : Q) : Qlt_bool x y = false <-> y <= x.
Proof.
  unfold Qlt_bool. rewrite negb_false_iff. apply Qle_bool_iff.
Qed.

Lemma Qle_bool_false_iff (x y : Q) : Qle_bool x y = false <-> y < x.
Proof.
  rewrite <- Qlt_bool_iff. unfold Qlt_bool.
  destruct (Qle_bool x y); simpl; intuition congruence.
Qed.

(** On cells that are not missing, [<] is the negation of the converse [<=]. *)
Lemma flt_negb_fle (a b : float64) :
  isnan a = false -> isnan b = false -> flt a b = negb (fle b a).
Proof.
  destruct a, b; simpl; intros; try discriminate; reflexivity.
Qed.

Lemma fle_notnan (a b : float64) :
  fle a b = true -> isnan a = false /\ isnan b = false.
Proof. destruct a, b; simpl; intros; try discriminate; auto. Qed.

Lemma flt_notnan (a b : float64) :
  flt a b = true -> isnan a = false /\ isnan b = false.
Proof. destruct a, b; simpl; intros; try discriminate; auto. Qed.

Lemma fle_refl (a : float64) : isnan a = false -> fle a a = true.
Proof.
  destruct a; simpl; intros; try discriminate; auto.
  apply Qle_bool_iff. lra.
Qed.

Lemma fle_trans (a b c : float64) :
  fle a b = true -> fle b c = true -> fle a c = true.
Proof.
  destruct a, b, c; simpl; intros H1 H2; try discriminate; auto.
  apply Qle_bool_iff in H1, H2. apply Qle_bool_iff. lra.
Qed.

Lemma flt_fle_trans (a b c : float64) :
  flt a b = true -> fle b c = true -> flt a c = true.
Proof.
  destruct a, b, c; simpl; intros H1 H2; try discriminate; auto.
  apply Qlt_bool_iff in H1. apply Qle_bool_iff in H2.
  apply Qlt_bool_iff. lra.
Qed.

Lemma flt_fle (a b : float64) : flt a b = true -> fle a b = true.
Proof.
  destruct a, b; simpl; intros H; try discriminate; auto.
  apply Qlt_bool_iff in H. apply Qle_bool_iff. lra.
Qed.

Lemma fmax_ge_l (a b : float64) :
  isnan a = false -> fle a (fmax a b) = true.
Proof.
  intros Ha. unfold fmax. destruct (flt a b) eqn:E.
  - now apply flt_fle.
  - now apply fle_refl.
Qed.

Lemma fmax_ge_r (a b : float64) :
  isnan a = false -> isnan b = false -> fle b (fmax a b) = true.
Proof.
  intros Ha Hb. unfold fmax. destruct (flt a b) eqn:E.
  - now apply fle_refl.
  - rewrite (flt_negb_fle a b Ha Hb) in E.
    now apply negb_false_iff in E.
Qed.

Lemma fmax_notnan (a b : float64) :
  isnan a = false -> isnan b = false -> isnan (fmax a b) = false.
Proof. intros Ha Hb. unfold fmax. now destruct (flt a b). Qed.

Lemma fmax_cases (a b : float64) : fmax a b = a \/ fmax a b = b.
Proof. unfold fmax. destruct (flt a b); auto. Qed.

End OrderFacts.

(** * The risk scorer *)

Section RiskScorer.

Import ReserveMonitoring.
Local Open Scope Z_scope.

(** The second test of an [if x < lo ... elif x < hi] chain selects the band
    [lo <= x < hi]. *)
Lemma elif_lt_band (x lo hi : float64) :
  isnan lo = false -> flt x lo = false ->
  flt x hi = fle lo x && flt x hi.
Proof.
  intros Hlo H. destruct (flt x hi) eqn:E; [| now rewrite andb_false_r].
  destruct (flt_notnan _ _ E) as [Hx _].
  rewrite (flt_negb_fle x lo Hx Hlo) in H.
  apply negb_false_iff in H. now rewrite H.
Qed.

(** The second test of an [if x > hi ... elif x > lo] chain selects the band
    [lo < x <= hi]. *)
Lemma elif_gt_band (x lo hi : float64) :
  isnan hi = false -> fgt x hi = false ->
  fgt x lo = flt lo x && fle x hi.
Proof.
  unfold fgt. intros Hhi H. destruct (flt lo x) eqn:E; [| reflexivity].
  destruct (flt_notnan _ _ E) as [_ Hx].
  rewrite (flt_negb_fle hi x Hhi Hx) in H.
  apply negb_false_iff in H. now rewrite H.
Qed.

Lemma claims_points_source (c : float64) :
  (if fgt c (lit 2) then 3 else if fgt c (lit 0) then 1 else 0)
  = Spec.claims_points c.
Proof.
  unfold Spec.claims_points. destruct (fgt c (lit 2)) eqn:E; [reflexivity |].
  now rewrite <- (elif_gt_band c (lit 0) (lit 2) eq_refl E).
Qed.

Lemma health_points_source (h : float64) :
  (if flt h (lit 20) then 2 else if flt h (lit 40) then 1 else 0)
  = Spec.health_points h.
Proof.
  unfold Spec.health_points. destruct (flt h (lit 20)) eqn:E; [reflexivity |].
  now rewrite <- (elif_lt_band h (lit 20) (lit 40) eq_refl E).
Qed.

Lemma credit_points_source (c : float64) :
  (if flt c (lit 500) then 2 else if flt c (lit 650) then 1 else 0)
  = Spec.credit_points c.
Proof.
  unfold Spec.credit_points. destruct (flt c (lit 500)) eqn:E; [reflexivity |].
  now rewrite <- (elif_lt_band c (lit 500) (lit 650) eq_refl E).
Qed.

(** The accumulated score is the sum of the six contributions. *)
Lemma score_row_sum (row : Row) :
  score_row row =
  (if (Age row <? lit 25)%f64 || (Age row >? lit 65)%f64 then 2
   else if (lit 25 <=? Age row)%f64 && (Age row <=? lit 35)%f64 then 1 else 0)
  + (if fgt (Previous_Claims row) (lit 2) then 3
     else if fgt (Previous_Claims row) (lit 0) then 1 else 0)
  + (if flt (Health_Score row) (lit 20) then 2
     else if flt (Health_Score row) (lit 40) then 1 else 0)
  + (if flt (Credit_Score row) (lit 500) then 2
     else if flt (Credit_Score row) (lit 650) then 1 else 0)
  + (if str_eq (Smoking_Status row) "Yes" then 2 else 0)
  + (if str_eq (Exercise_Frequency row) "Rarely" then 1 else 0).
Proof.
  unfold score_row.
  repeat match goal with
         | |- context [if ?b then _ else _] => destruct b
         end; reflexivity.
Qed.

Lemma score_row_spec (row : Row) : score_row row = Spec.risk_score row.
Proof.
  rewrite score_row_sum, claims_points_source, health_points_source,
    credit_points_source.
  reflexivity.
Qed.

Lemma categorize_spec (score : Z) :
  _categorize_risk score = Spec.risk_category score.
Proof.
  unfold _categorize_risk, Spec.risk_category.
  destruct (Z.leb_spec score 2); [reflexivity |].
  destruct (Z.ltb_spec 2 score); [| lia]. simpl.
  destruct (Z.leb_spec score 4); [reflexivity |].
  destruct (Z.ltb_spec 4 score); [| lia]. reflexivity.
Qed.

Lemma category_row_categorize (row : Row) :
  InsuranceAnalytics.category_row row = _categorize_risk (score_row row).
Proof. reflexivity. Qed.

(** [load_and_prepare_data] treats the rows one by one. *)
Lemma load_and_prepare_data_map (raw : list Row) :
  load_and_prepare_data raw =
  map (fun row =>
         let row' := fill_missing row in
         mkPolicyRow row' (score_row row') (_categorize_risk (score_row row'))
                     (loss_ratio row'))
      raw.
Proof.
  unfold load_and_prepare_data, _calculate_risk_score.
  induction raw as [| row raw IH]; simpl; [reflexivity |].
  now rewrite IH.
Qed.

Lemma points_bounds (row : Row) :
  0 <= Spec.age_points (Age row) <= 2 /\
  0 <= Spec.claims_points (Previous_Claims row) <= 3 /\
  0 <= Spec.health_points (Health_Score row) <= 2 /\
  0 <= Spec.credit_points (Credit_Score row) <= 2 /\
  0 <= Spec.smoking_points (Smoking_Status row) <= 2 /\
  0 <= Spec.exercise_points (Exercise_Frequency row) <= 1.
Proof.
  unfold Spec.age_points, Spec.claims_points, Spec.health_points,
    Spec.credit_points, Spec.smoking_points, Spec.exercise_points.
  repeat match goal with
         | |- context [if ?b then _ else _] => destruct b
         end; lia.
Qed.

Lemma score_row_bounds (row : Row) : 0 <= score_row row <= 12.
Proof.
  rewrite score_row_spec. unfold Spec.risk_score.
  pose proof (points_bounds row). lia.
Qed.

End RiskScorer.

Section RiskScorerClaims.

Import ReserveMonitoring.
Local Open Scope Z_scope.

(** C2.  For every policy record the risk score computed by
    [_calculate_risk_score] is the sum of the six contributions of the scoring
    rule (age, previous claims, health score, credit score, smoking, exercise)
    as the specification words them, and the risk category is derived from
    that total as score <= 2 Low, <= 4 Medium, <= 6 High, > 6 Very High; the
    scorer of [data_etl_analysis.py] yields the same category, and the
    'Risk Score' and 'Risk Category' columns of the prepared frame hold these
    values. *)
Theorem C2_risk_score_rule (raw : list Row) :
  (forall row, score_row row = Spec.risk_score row) /\
  (forall score, _categorize_risk score = Spec.risk_category score) /\
  (forall row,
      InsuranceAnalytics.category_row row = Spec.risk_category (Spec.risk_score row)) /\
  Forall (fun r =>
            Risk_Score r = Spec.risk_score (policy r) /\
            Risk_Category r = Spec.risk_category (Risk_Score r))
         (load_and_prepare_data raw).
Proof.
  split; [exact score_row_spec |].
  split; [exact categorize_spec |].
  split.
  - intro row. now rewrite category_row_categorize, categorize_spec, score_row_spec.
  - rewrite load_and_prepare_data_map. apply Forall_forall.
    intros r Hr. apply in_map_iff in Hr. destruct Hr as [row [<- _]].
    simpl. split; [apply score_row_spec | apply categorize_spec].
Qed.

(** C6.  For every policy record the risk score is a non-negative integer
    that is at most 13, and the risk category is a monotonic non-decreasing
    step function of the score whose steps are exactly at the breakpoints 2, 4
    and 6; the 'Risk Score' and 'Risk Category' cells of the prepared frame
    hold such a score and the step of it. *)
Theorem C6_risk_score_range :
  (forall row, 0 <= score_row row <= 13) /\
  (forall raw,
      Forall (fun r => 0 <= Risk_Score r <= 13 /\
                       Risk_Category r = _categorize_risk (Risk_Score r))
             (load_and_prepare_data raw)) /\
  (forall s1 s2, s1 <= s2 ->
                 rank (_categorize_risk s1) <= rank (_categorize_risk s2)) /\
  (forall s, _categorize_risk s <> _categorize_risk (s + 1)
             <-> s = 2 \/ s = 4 \/ s = 6).
Proof.
  split; [intro row; pose proof (score_row_bounds row); lia |].
  split.
  { intro raw. rewrite load_and_prepare_data_map. apply Forall_forall.
    intros r Hr. apply in_map_iff in Hr. destruct Hr as [row [<- _]].
    simpl. split; [| reflexivity].
    pose proof (score_row_bounds (fill_missing row)). lia. }
  split.
  - intros s1 s2 H. unfold _categorize_risk.
    destruct (Z.leb_spec s1 2), (Z.leb_spec s1 4), (Z.leb_spec s1 6),
      (Z.leb_spec s2 2), (Z.leb_spec s2 4), (Z.leb_spec s2 6);
      simpl; lia.
  - intro s. unfold _categorize_risk.
    destruct (Z.leb_spec s 2), (Z.leb_spec s 4), (Z.leb_spec s 6),
      (Z.leb_spec (s + 1) 2), (Z.leb_spec (s + 1) 4), (Z.leb_spec (s + 1) 6);
      try lia; split; intro Hs; try lia; try congruence; try discriminate.
Qed.

Lemma C6_risk_score_range_witness :
  rank (_categorize_risk 3) <= rank (_categorize_risk 5).
Proof.
  apply (proj1 (proj2 (proj2 C6_risk_score_range)) 3 5). lia.
Defined.

Lemma claims_points_mono (c1 c2 : float64) :
  fle c1 c2 = true -> Spec.claims_points c1 <= Spec.claims_points c2.
Proof.
  intro H. rewrite <- !claims_points_source. unfold fgt.
  destruct (flt (lit 2) c1) eqn:E2.
  - now rewrite (flt_fle_trans _ _ _ E2 H).
  - destruct (flt (lit 0) c1) eqn:E0.
    + rewrite (flt_fle_trans _ _ _ E0 H).
      destruct (flt (lit 2) c2); lia.
    + destruct (flt (lit 2) c2); [lia |].
      destruct (flt (lit 0) c2); lia.
Qed.

(** C10.  With all other fields held fixed, the risk score is monotonically
    non-decreasing in previous_claims: raising the number of previous claims
    never lowers the score, and the score changes by exactly the change of the
    claims contribution, which steps from 0 to 1 to 3 as previous_claims
    crosses 0 and 2. *)
Theorem C10_score_monotone_in_claims (row : Row) (c1 c2 : float64) :
  fle c1 c2 = true ->
  score_row (with_claims row c1) <= score_row (with_claims row c2) /\
  score_row (with_claims row c2) - score_row (with_claims row c1)
  = Spec.claims_points c2 - Spec.claims_points c1.
Proof.
  intro H. rewrite !score_row_spec. unfold Spec.risk_score. simpl.
  pose proof (claims_points_mono c1 c2 H). lia.
Qed.

Lemma C10_score_monotone_in_claims_witness :
  score_row (with_claims riskiest_row (lit 1))
  <= score_row (with_claims riskiest_row (lit 3)) /\
  score_row (with_claims riskiest_row (lit 3))
  - score_row (with_claims riskiest_row (lit 1))
  = Spec.claims_points (lit 3) - Spec.claims_points (lit 1).
Proof.
  apply (C10_score_monotone_in_claims riskiest_row (lit 1) (lit 3)).
  reflexivity.
Defined.

End RiskScorerClaims.

(** * Sums and maxima of cells *)

Section Aggregates.

Lemma fold_fmax_bounds (xs : list float64) : forall x,
  isnan x = false -> Forall (fun y => isnan y = false) xs ->
  isnan (fold_left fmax xs x) = false /\
  fle x (fold_left fmax xs x) = true /\
  Forall (fun y => fle y (fold_left fmax xs x) = true) xs.
Proof.
  induction xs as [| y ys IH]; intros x Hx Hxs; simpl.
  - repeat split; auto. now apply fle_refl.
  - inversion Hxs as [| ? ? Hy Hys]; subst.
    destruct (IH (fmax x y) (fmax_notnan x y Hx Hy) Hys) as [Hn [Hacc Hall]].
    repeat split; auto.
    + exact (fle_trans _ _ _ (fmax_ge_l x y Hx) Hacc).
    + constructor; auto.
      exact (fle_trans _ _ _ (fmax_ge_r x y Hx Hy) Hacc).
Qed.

Lemma fold_fmax_In (xs : list float64) : forall x,
  In (fold_left fmax xs x) (x :: xs).
Proof.
  induction xs as [| y ys IH]; intro x; simpl; [auto |].
  destruct (IH (fmax x y)) as [H | H]; [| auto].
  destruct (fmax_cases x y) as [E | E]; [left | right; left]; congruence.
Qed.

Lemma filter_notnan_Forall (l : list float64) :
  Forall (fun y => isnan y = false) (filter notnan l).
Proof.
  apply Forall_forall. intros y Hy. apply filter_In in Hy.
  destruct Hy as [_ Hy]. now apply negb_true_iff in Hy.
Qed.

(** The row maximum dominates every cell that is not missing. *)
Lemma nanmax_ge (l : list float64) (c : float64) :
  In c l -> isnan c = false -> fle c (nanmax l) = true.
Proof.
  intros Hin Hc. unfold nanmax.
  assert (Hf : In c (filter notnan l)).
  { apply filter_In. split; [assumption |]. unfold notnan. now rewrite Hc. }
  pose proof (filter_notnan_Forall l) as Hall.
  destruct (filter notnan l) as [| x xs]; [contradiction |].
  inversion Hall as [| ? ? Hx Hxs]; subst.
  destruct (fold_fmax_bounds xs x Hx Hxs) as [_ [Hacc Hrest]].
  destruct Hf as [<- | Hf]; [assumption |].
  rewrite Forall_forall in Hrest. now apply Hrest.
Qed.

(** The row maximum is one of the cells of the row. *)
Lemma nanmax_In (l : list float64) : l <> [] -> In (nanmax l) l.
Proof.
  intro Hne. unfold nanmax. destruct (filter notnan l) as [| x xs] eqn:E.
  - destruct l as [| a l]; [contradiction |].
    simpl in E. destruct a; simpl in E; try discriminate. now left.
  - assert (Hsub : forall y, In y (x :: xs) -> In y l).
    { intros y Hy. rewrite <- E in Hy. now apply filter_In in Hy. }
    apply Hsub. apply fold_fmax_In.
Qed.

(** A sum of missing or finite cells is the finite sum of the present ones. *)
Lemma nansum_acc (l : list float64) : forall a,
  Forall finite_or_missing l ->
  exists q, fold_left fadd (filter notnan l) (Fin a) = Fin q /\ q == a + qsum l.
Proof.
  induction l as [| x l IH]; intros a Hl; simpl.
  - exists a. split; [reflexivity | lra].
  - inversion Hl as [| ? ? Hx Hl']; subst.
    destruct x as [| | | q]; simpl in *; try contradiction.
    + destruct (IH a Hl') as [r [E Hr]]. exists r. split; [exact E | lra].
    + destruct (IH (a + q) Hl') as [r [E Hr]]. exists r. split; [exact E | lra].
Qed.

Lemma nansum_finite (l : list float64) :
  Forall finite_or_missing l ->
  exists q, nansum l = Fin q /\ q == qsum l.
Proof.
  intro Hl. destruct (nansum_acc l 0 Hl) as [q [E Hq]].
  exists q. split; [exact E | lra].
Qed.

End Aggregates.

(** * The reserve engine *)

Section ReserveEngine.

Import ReserveMonitoring.

Lemma multiplier_lookup (c : RiskCategory) :
  dict_get risk_multipliers (label c) (dec 15 100) = Spec.multiplier c.
Proof. destruct c; reflexivity. Qed.

(** A group of [groupby] holds the rows of its category and is not empty. *)
Lemma groupby_risk_In (df : list PolicyRow) (c : RiskCategory) (rows : list PolicyRow) :
  In (c, rows) (groupby_risk df) <->
  rows = filter (fun r => RiskCategory_eqb (Risk_Category r) c) df /\ rows <> [].
Proof.
  unfold groupby_risk. rewrite filter_In, in_map_iff. simpl. split.
  - intros [[c' [E _]] Hne]. inversion E; subst. split; [reflexivity |].
    intro H. rewrite H in Hne. discriminate.
  - intros [-> Hne]. split.
    + exists c. split; [reflexivity |]. destruct c; simpl; auto.
    + destruct (filter _ df); [contradiction | reflexivity].
Qed.

Lemma reserve_rows_In (df : list PolicyRow) (r : ReserveRow) :
  In r (calculate_reserve_requirements df) ->
  exists c rows, r = reserve_row (c, rows) /\ In (c, rows) (groupby_risk df).
Proof.
  unfold calculate_reserve_requirements. rewrite in_map_iff.
  intros [[c rows] [<- Hg]]. now exists c, rows.
Qed.

Lemma candidates_reserve_row (c : RiskCategory) (rows : list PolicyRow) :
  let r := reserve_row (c, rows) in
  Premium_Based_Reserves r = (Total_Premiums r * dec 15 100)%f64 /\
  Claims_Based_Reserves r = ((Total_Claims r * lit 1000) * lit 3)%f64 /\
  Risk_Adjusted_Reserves r = (Total_Premiums r * Spec.multiplier (Category r))%f64 /\
  IBNR_Reserves r = (Total_Premiums r * dec 5 100)%f64 /\
  Total_Required_Reserves r = nanmax (candidates r).
Proof.
  cbv beta iota zeta delta
    [reserve_row candidates Premium_Based_Reserves Claims_Based_Reserves
     Risk_Adjusted_Reserves IBNR_Reserves Total_Required_Reserves
     Total_Premiums Total_Claims Category].
  rewrite multiplier_lookup. repeat split.
Qed.

Lemma filter_subset_Forall {A : Type} (P : A -> Prop) (f : A -> bool) (l : list A) :
  Forall P l -> Forall P (filter f l).
Proof.
  rewrite !Forall_forall. intros H x Hx. apply filter_In in Hx. now apply H.
Qed.

Lemma clean_premiums (df : list PolicyRow) :
  clean df -> Forall finite_or_missing (premiums df).
Proof.
  unfold clean, premiums. rewrite Forall_map.
  apply Forall_impl. now intros r [H _].
Qed.

Lemma clean_claims (df : list PolicyRow) :
  clean df -> Forall finite_or_missing (claims df).
Proof.
  unfold clean, claims. rewrite Forall_map.
  apply Forall_impl. now intros r [_ H].
Qed.

(** On clean data the two group totals are finite. *)
Lemma totals_finite (c : RiskCategory) (rows : list PolicyRow) :
  clean rows ->
  exists p k, Total_Premiums (reserve_row (c, rows)) = Fin p /\
              Total_Claims (reserve_row (c, rows)) = Fin k.
Proof.
  intro H. simpl.
  destruct (nansum_finite _ (clean_premiums rows H)) as [p [-> _]].
  destruct (nansum_finite _ (clean_claims rows H)) as [k [-> _]].
  simpl. eauto.
Qed.

(** C1.  For every risk category's aggregate the four candidate amounts are
    premium-based = total_premiums x 0.15, claims-based = total_claims x 1000
    x 3, risk-adjusted = total_premiums x the category's multiplier (Low 0.10,
    Medium 0.15, High 0.25, Very High 0.35) and IBNR = total_premiums x 0.05;
    the total required reserves are their maximum: one of the four amounts,
    at least each of them (a missing amount is skipped by the maximum, and
    none is missing on data without infinite cells); it is not their sum nor
    their average, as the aggregate with 100,000 of premiums and 40 claims
    shows. *)
Theorem C1_total_required_is_max (df : list PolicyRow) :
  Forall (fun r =>
            Premium_Based_Reserves r = (Total_Premiums r * dec 15 100)%f64 /\
            Claims_Based_Reserves r = ((Total_Claims r * lit 1000) * lit 3)%f64 /\
            Risk_Adjusted_Reserves r
            = (Total_Premiums r * Spec.multiplier (Category r))%f64 /\
            IBNR_Reserves r = (Total_Premiums r * dec 5 100)%f64 /\
            Total_Required_Reserves r = nanmax (candidates r) /\
            In (Total_Required_Reserves r) (candidates r) /\
            Forall (fun c => isnan c = true \/
                             fle c (Total_Required_Reserves r) = true)
                   (candidates r))
         (calculate_reserve_requirements df) /\
  (clean df ->
   Forall (fun r => Forall (fun c => fle c (Total_Required_Reserves r) = true)
                           (candidates r))
          (calculate_reserve_requirements df)) /\
  (exists r,
      In r (calculate_reserve_requirements (load_and_prepare_data low_risk_table)) /\
      (Total_Required_Reserves r == lit 120000)%f64 /\
      ~ (Total_Required_Reserves r == nansum (candidates r))%f64 /\
      ~ (Total_Required_Reserves r == nanmean (candidates r))%f64).
Proof.
  split; [| split].
  - apply Forall_forall. intros r Hr.
    destruct (reserve_rows_In df r Hr) as [c [rows [-> _]]].
    destruct (candidates_reserve_row c rows) as [H1 [H2 [H3 [H4 H5]]]].
    repeat (split; [assumption |]).
    split.
    + rewrite H5. apply nanmax_In. discriminate.
    + apply Forall_forall. intros x Hx.
      destruct (isnan x) eqn:E; [now left | right].
      rewrite H5. now apply nanmax_ge.
  - intro Hclean. apply Forall_forall. intros r Hr.
    destruct (reserve_rows_In df r Hr) as [c [rows [-> Hg]]].
    apply groupby_risk_In in Hg. destruct Hg as [Hrows _].
    assert (Hc : clean rows).
    { rewrite Hrows. now apply filter_subset_Forall. }
    destruct (candidates_reserve_row c rows) as [H1 [H2 [H3 [H4 H5]]]].
    destruct (totals_finite c rows Hc) as [p [k [Hp Hk]]].
    apply Forall_forall. intros x Hx. rewrite H5.
    apply nanmax_ge; [assumption |].
    unfold candidates in Hx. rewrite H1, H2, H3, H4, Hp, Hk in Hx.
    destruct (Category (reserve_row (c, rows)));
      simpl in Hx; intuition (subst; reflexivity).
  - eexists. split; [left; reflexivity |].
    vm_compute. repeat split; intro H; discriminate.
Qed.

Lemma C1_total_required_is_max_witness :
  Forall (fun r => Forall (fun c => fle c (Total_Required_Reserves r) = true)
                          (candidates r))
         (calculate_reserve_requirements (load_and_prepare_data low_risk_table)).
Proof.
  apply (proj1 (proj2 (C1_total_required_is_max
                         (load_and_prepare_data low_risk_table)))).
  vm_compute. repeat constructor.
Defined.

End ReserveEngine.

(** * Ratios over zero *)

Section Ratios.

Import ReserveMonitoring.

Lemma Qsgn_pos (x : Q) : 0 < x -> Qsgn x = Gt.
Proof. intro H. unfold Qsgn. now apply Qgt_alt. Qed.

Lemma Qsgn_zero (x : Q) : x == 0 -> Qsgn x = Eq.
Proof. intro H. unfold Qsgn. now apply Qeq_alt. Qed.

Lemma Qeq_bool_zero (x : Q) : x == 0 -> Qeq_bool x 0 = true.
Proof. apply Qeq_bool_iff. Qed.

Lemma Qeq_bool_nonzero (x : Q) : ~ x == 0 -> Qeq_bool x 0 = false.
Proof.
  intro H. destruct (Qeq_bool x 0) eqn:E; [| reflexivity].
  apply Qeq_bool_iff in E. contradiction.
Qed.

(** The per-policy loss ratio, case by case.  The two scripts compute it in
    the same way. *)
Lemma loss_ratio_cases (row : Row) :
  InsuranceAnalytics.estimated_loss_ratio row = loss_ratio row /\
  (isnan (Premium_Amount row) = true -> loss_ratio row = lit 0) /\
  (forall c p, Previous_Claims row = Fin c -> Premium_Amount row = Fin p ->
               ~ p == 0 -> loss_ratio row = Fin (c * inject_Z 1000 / p)) /\
  (forall c p, Previous_Claims row = Fin c -> Premium_Amount row = Fin p ->
               p == 0 -> c == 0 -> loss_ratio row = lit 0) /\
  (forall c p, Previous_Claims row = Fin c -> Premium_Amount row = Fin p ->
               p == 0 -> 0 < c -> loss_ratio row = PosInf).
Proof.
  split; [reflexivity |]. unfold loss_ratio. split; [| split; [| split]].
  - destruct (Premium_Amount row); try discriminate. intros _.
    now destruct (Previous_Claims row * lit 1000)%f64.
  - intros c p -> -> Hp. simpl. now rewrite (Qeq_bool_nonzero p Hp).
  - intros c p -> -> Hp Hc. simpl. rewrite (Qeq_bool_zero p Hp).
    rewrite Qsgn_zero; [reflexivity |]. rewrite Hc. reflexivity.
  - intros c p -> -> Hp Hc. simpl. rewrite (Qeq_bool_zero p Hp).
    rewrite Qsgn_pos; [reflexivity |].
    apply Qmult_lt_0_compat; [assumption | reflexivity].
Qed.

(** C4, the code at a policy with premium 0 and three previous claims: the
    'Loss Ratio' cell is +infinity in both scripts, since [fillna(0)] replaces
    missing values only. *)
Theorem C4_zero_premium_loss_ratio :
  Premium_Amount zero_premium_row = lit 0 /\
  map Loss_Ratio (load_and_prepare_data [zero_premium_row]) = [PosInf] /\
  InsuranceAnalytics.estimated_loss_ratio zero_premium_row = PosInf.
Proof. repeat split. Qed.

(** The per-category reserve ratio, case by case: the quotient for a nonzero
    exposure, +infinity for positive reserves over no exposure, [NaN] for no
    reserves over no exposure. *)
Lemma reserve_ratio_cases (c : RiskCategory) (rows : list PolicyRow) :
  let r := reserve_row (c, rows) in
  Reserve_Ratio r = (Total_Required_Reserves r / Actual_Claims_Exposure r)%f64 /\
  (forall t e, Total_Required_Reserves r = Fin t -> Actual_Claims_Exposure r = Fin e ->
               ~ e == 0 -> Reserve_Ratio r = Fin (t / e)) /\
  (forall t e, Total_Required_Reserves r = Fin t -> Actual_Claims_Exposure r = Fin e ->
               e == 0 -> 0 < t -> Reserve_Ratio r = PosInf) /\
  (forall t e, Total_Required_Reserves r = Fin t -> Actual_Claims_Exposure r = Fin e ->
               e == 0 -> t == 0 -> Reserve_Ratio r = NaN).
Proof.
  intro r.
  assert (E : Reserve_Ratio r
              = (Total_Required_Reserves r / Actual_Claims_Exposure r)%f64)
    by reflexivity.
  split; [exact E |]. rewrite E. repeat split; intros t e -> -> He; simpl.
  - now rewrite (Qeq_bool_nonzero e He).
  - intro Ht. now rewrite (Qeq_bool_zero e He), (Qsgn_pos t Ht).
  - intro Ht. now rewrite (Qeq_bool_zero e He), (Qsgn_zero t Ht).
Qed.

(** C5, the code at a portfolio of one policy with no premium and no claims:
    the category has no exposure and its 'Reserve Ratio' cell is [NaN], not
    +infinity. *)
Theorem C5_no_exposure_reserve_ratio :
  let ra := calculate_reserve_requirements (load_and_prepare_data no_exposure_table) in
  map Category ra = [Low] /\
  Forall (fun r => (Actual_Claims_Exposure r == lit 0)%f64) ra /\
  map Reserve_Ratio ra = [NaN].
Proof.
  vm_compute. repeat split. constructor; [reflexivity | constructor].
Qed.

End Ratios.

(** * The stress tester *)

Section StressTester.

Import ReserveMonitoring.

Lemma feq_refl (a : float64) : (a == a)%f64.
Proof. destruct a; simpl; auto. reflexivity. Qed.

Lemma feq_fmul_fin (a b : float64) (q : Q) :
  (a == b)%f64 -> (a * Fin q == b * Fin q)%f64.
Proof.
  destruct a as [| | | x], b as [| | | y]; intro H; simpl in H;
    try contradiction; try apply feq_refl.
  simpl. apply Qmult_comp; [exact H | reflexivity].
Qed.

Lemma feq_fsub (a a' b b' : float64) :
  (a == a')%f64 -> (b == b')%f64 -> (a - b == a' - b')%f64.
Proof.
  destruct a as [| | | x], a' as [| | | x'], b as [| | | y], b' as [| | | y'];
    intros H1 H2; simpl in H1, H2; try contradiction; try exact I.
  simpl. apply Qplus_comp; [exact H1 | now apply Qopp_comp].
Qed.

(** Multiplying by the literal 1.0 changes nothing. *)
Lemma fmul_one (a : float64) : (a * dec 10 10 == a)%f64.
Proof.
  destruct a; simpl; auto. unfold Qeq. simpl. lia.
Qed.

Lemma Forall2_map_self {A B : Type} (P : A -> B -> Prop) (f : A -> B) (l : list A) :
  (forall a, P a (f a)) -> Forall2 P l (map f l).
Proof. intro H. induction l; simpl; constructor; auto. Qed.

Lemma status_cases (base : BaseMetrics) (s : Scenario) :
  let r := stress_scenario base s in
  (Adequacy_Status r = "Adequate"%string <-> fge (Capital_Adequacy r) (lit 0) = true) /\
  (Adequacy_Status r = "Inadequate"%string <-> fge (Capital_Adequacy r) (lit 0) = false).
Proof.
  intro r.
  assert (E : Adequacy_Status r
              = if fge (Capital_Adequacy r) (lit 0)
                then "Adequate"%string else "Inadequate"%string) by reflexivity.
  rewrite E. destruct (fge (Capital_Adequacy r) (lit 0));
    repeat split; intros; try reflexivity; discriminate.
Qed.

(** C3.  The catalog holds the six scenarios of the specification, and for
    each of them the stress tester computes stressed_premiums = portfolio
    total premiums x the premium multiplier, required reserves =
    stressed_premiums x 0.15 (the premium-based method alone), exposure =
    (portfolio total claims x the claims multiplier) x 1000 and adequacy =
    required - exposure, and reports "Adequate" exactly when adequacy >= 0 and
    "Inadequate" otherwise.  For Severe Stress on 1,000,000 of premiums and
    300 claims this gives 150,000 of required reserves, below three times the
    exposure that the four-way maximum would have used. *)
Theorem C3_stress_uses_premium_method (df : list PolicyRow) :
  map (fun s => (scenario_name s, claims_multiplier s, premium_multiplier s))
      scenarios
  = [ ("Base Case"%string, dec 10 10, dec 10 10);
      ("Mild Stress"%string, dec 12 10, dec 10 10);
      ("Moderate Stress"%string, dec 15 10, dec 10 10);
      ("Severe Stress"%string, dec 20 10, dec 10 10);
      ("Economic Downturn"%string, dec 18 10, dec 9 10);
      ("Catastrophic Event"%string, dec 30 10, dec 10 10) ] /\
  total_premiums (base_metrics df) = nansum (premiums df) /\
  total_claims (base_metrics df) = nansum (claims df) /\
  Forall2 (fun s r =>
             Scenario_Name r = scenario_name s /\
             Stressed_Premiums r
             = (total_premiums (base_metrics df) * premium_multiplier s)%f64 /\
             Required_Reserves r = (Stressed_Premiums r * dec 15 100)%f64 /\
             Stress_Claims_Exposure r
             = ((total_claims (base_metrics df) * claims_multiplier s) * lit 1000)%f64 /\
             Capital_Adequacy r
             = (Required_Reserves r - Stress_Claims_Exposure r)%f64 /\
             (Adequacy_Status r = "Adequate"%string
              <-> fge (Capital_Adequacy r) (lit 0) = true) /\
             (Adequacy_Status r = "Inadequate"%string
              <-> fge (Capital_Adequacy r) (lit 0) = false))
          scenarios (perform_stress_testing df) /\
  (let r := stress_scenario million_base
              (mkScenario "Severe Stress" (dec 20 10) (dec 10 10) "") in
   (Required_Reserves r == lit 150000)%f64 /\
   (Stress_Claims_Exposure r == lit 600000)%f64 /\
   (Capital_Adequacy r == lit (-450000))%f64 /\
   Adequacy_Status r = "Inadequate"%string /\
   flt (Required_Reserves r) (Stress_Claims_Exposure r * lit 3)%f64 = true).
Proof.
  split; [reflexivity |]. split; [reflexivity |]. split; [reflexivity |].
  split.
  - unfold perform_stress_testing. apply Forall2_map_self. intro s.
    pose proof (status_cases (base_metrics df) s) as [Ha Hi].
    repeat (split; [reflexivity |]). split; assumption.
  - vm_compute. repeat split.
Qed.

(** C8.  The "Base Case" scenario (claims multiplier 1.0, premium multiplier
    1.0) is evaluated for every portfolio, and its result holds the unstressed
    premium-based figures: required reserves = total premiums x 0.15,
    exposure = total claims x 1000, adequacy = their difference. *)
Theorem C8_base_case_unstressed (df : list PolicyRow) :
  (exists r, In r (perform_stress_testing df) /\
             Scenario_Name r = "Base Case"%string) /\
  (forall r, In r (perform_stress_testing df) ->
             Scenario_Name r = "Base Case"%string ->
             Claims_Multiplier r = dec 10 10 /\
             Premium_Multiplier r = dec 10 10 /\
             (Stressed_Premiums r == nansum (premiums df))%f64 /\
             (Stressed_Claims r == nansum (claims df))%f64 /\
             (Required_Reserves r == nansum (premiums df) * dec 15 100)%f64 /\
             (Stress_Claims_Exposure r == nansum (claims df) * lit 1000)%f64 /\
             (Capital_Adequacy r
              == nansum (premiums df) * dec 15 100 - nansum (claims df) * lit 1000)%f64).
Proof.
  split.
  - eexists. split; [left; reflexivity | reflexivity].
  - intros r Hr Hn. unfold perform_stress_testing, scenarios in Hr.
    simpl in Hr.
    destruct Hr as [<- | [<- | [<- | [<- | [<- | [<- | []]]]]]];
      try discriminate Hn.
    cbv beta iota zeta delta
      [stress_scenario base_metrics Claims_Multiplier Premium_Multiplier
       Stressed_Premiums Stressed_Claims Required_Reserves
       Stress_Claims_Exposure Capital_Adequacy claims_multiplier
       premium_multiplier total_premiums total_claims].
    pose proof (fmul_one (nansum (premiums df))) as Hp.
    pose proof (fmul_one (nansum (claims df))) as Hc.
    repeat split; try assumption.
    + now apply feq_fmul_fin.
    + now apply feq_fmul_fin.
    + apply feq_fsub; now apply feq_fmul_fin.
Qed.

Lemma C8_base_case_unstressed_witness :
  let df := load_and_prepare_data low_risk_table in
  let r := stress_scenario (base_metrics df)
             (mkScenario "Base Case" (dec 10 10) (dec 10 10)
                         "Current baseline scenario") in
  (Required_Reserves r == nansum (premiums df) * dec 15 100)%f64.
Proof.
  intros df r.
  refine (proj1 (proj2 (proj2 (proj2 (proj2
    (proj2 (C8_base_case_unstressed df) r _ _)))))).
  - left. reflexivity.
  - reflexivity.
Defined.

Lemma capital_ratio_zero (base : BaseMetrics) (s : Scenario) :
  (Stress_Claims_Exposure (stress_scenario base s) == lit 0)%f64 ->
  Capital_Ratio (stress_scenario base s) = lit 0.
Proof.
  intro H.
  assert (E : Capital_Ratio (stress_scenario base s)
              = if fgt (Stress_Claims_Exposure (stress_scenario base s)) (lit 0)
                then (Required_Reserves (stress_scenario base s)
                      / Stress_Claims_Exposure (stress_scenario base s))%f64
                else lit 0) by reflexivity.
  rewrite E.
  destruct (Stress_Claims_Exposure (stress_scenario base s)) as [| | | e];
    simpl in H; try contradiction.
  unfold fgt. simpl.
  assert (Hl : Qlt_bool (inject_Z 0) e = false).
  { apply Qlt_bool_false_iff. rewrite H. apply Qle_refl. }
  now rewrite Hl.
Qed.

Lemma exposure_zero (base : BaseMetrics) (s : Scenario) (m : Q) :
  (total_claims base == lit 0)%f64 -> claims_multiplier s = Fin m ->
  (Stress_Claims_Exposure (stress_scenario base s) == lit 0)%f64.
Proof.
  intros H Hm.
  assert (E : Stress_Claims_Exposure (stress_scenario base s)
              = ((total_claims base * claims_multiplier s) * lit 1000)%f64)
    by reflexivity.
  rewrite E, Hm. destruct (total_claims base) as [| | | t];
    simpl in H; try contradiction.
  simpl. rewrite H. unfold Qeq. simpl. reflexivity.
Qed.

(** C9.  Each of the six scenarios of the catalog is evaluated, and whenever
    the stressed claims exposure of a scenario is 0, which is the case for
    every scenario when the portfolio's total claims are 0, the capital ratio
    is 0: the division is not performed. *)
Theorem C9_capital_ratio_zero_exposure (df : list PolicyRow) :
  List.length (perform_stress_testing df) = 6%nat /\
  (forall base s,
      (Stress_Claims_Exposure (stress_scenario base s) == lit 0)%f64 ->
      Capital_Ratio (stress_scenario base s) = lit 0) /\
  Forall2 (fun s r =>
             r = stress_scenario (base_metrics df) s /\
             ((Stress_Claims_Exposure r == lit 0)%f64 -> Capital_Ratio r = lit 0))
          scenarios (perform_stress_testing df) /\
  ((total_claims (base_metrics df) == lit 0)%f64 ->
   Forall2 (fun s r =>
              Scenario_Name r = scenario_name s /\
              (Stress_Claims_Exposure r == lit 0)%f64 /\
              Capital_Ratio r = lit 0)
           scenarios (perform_stress_testing df)).
Proof.
  unfold perform_stress_testing.
  split; [reflexivity |]. split; [exact capital_ratio_zero |]. split.
  - apply Forall2_map_self. intro s. split; [reflexivity |].
    apply capital_ratio_zero.
  - intro H. unfold scenarios. simpl map.
    repeat constructor;
      try (apply capital_ratio_zero);
      eapply exposure_zero; try exact H; reflexivity.
Qed.

Lemma C9_capital_ratio_zero_exposure_witness :
  Forall2 (fun s r =>
             Scenario_Name r = scenario_name s /\
             (Stress_Claims_Exposure r == lit 0)%f64 /\
             Capital_Ratio r = lit 0)
          scenarios
          (perform_stress_testing (load_and_prepare_data no_exposure_table)).
Proof.
  apply (proj2 (proj2 (proj2 (C9_capital_ratio_zero_exposure
                                (load_and_prepare_data no_exposure_table))))).
  vm_compute. reflexivity.
Defined.

End StressTester.

(** * The aggregator *)

Section Aggregator.

Import ReserveMonitoring.

Lemma RiskCategory_eqb_eq (a b : RiskCategory) :
  RiskCategory_eqb a b = true <-> a = b.
Proof. destruct a, b; simpl; split; intro H; try reflexivity; discriminate. Qed.

(** Case analysis on which of the four groups of [df] are empty. *)
Ltac each_group df :=
  destruct (filter (fun r => RiskCategory_eqb (Risk_Category r) High) df);
  destruct (filter (fun r => RiskCategory_eqb (Risk_Category r) Low) df);
  destruct (filter (fun r => RiskCategory_eqb (Risk_Category r) Medium) df);
  destruct (filter (fun r => RiskCategory_eqb (Risk_Category r) Very_High) df);
  simpl.

(** Summing an integer measure over the groups amounts to summing it over the
    four categories, since the groups left out are empty. *)
Lemma group_sum_Z (g : list PolicyRow -> Z) (df : list PolicyRow) :
  g [] = 0%Z ->
  zsum (map (fun grp => g (snd grp)) (groupby_risk df))
  = (g (rows_of High df) + g (rows_of Low df)
     + g (rows_of Medium df) + g (rows_of Very_High df))%Z.
Proof.
  intro Hg. unfold groupby_risk, sorted_categories, rows_of. simpl.
  each_group df; rewrite ?Hg; lia.
Qed.

Lemma group_sum_Q (g : list PolicyRow -> Q) (df : list PolicyRow) :
  g [] == 0 ->
  fold_right Qplus 0 (map (fun grp => g (snd grp)) (groupby_risk df))
  == g (rows_of High df) + g (rows_of Low df)
     + g (rows_of Medium df) + g (rows_of Very_High df).
Proof.
  intro Hg. unfold groupby_risk, sorted_categories, rows_of. simpl.
  each_group df; rewrite ?Hg; lra.
Qed.

(** Every row falls in exactly one category: counts add up. *)
Lemma count_partition (df : list PolicyRow) :
  (count (premiums (rows_of High df)) + count (premiums (rows_of Low df))
   + count (premiums (rows_of Medium df)) + count (premiums (rows_of Very_High df))
   = count (premiums df))%Z.
Proof.
  unfold count, premiums, rows_of.
  rewrite <- !Nat2Z.inj_add. f_equal.
  induction df as [| r df IH]; [reflexivity |].
  simpl. destruct (Risk_Category r); simpl;
    destruct (notnan (Premium_Amount (policy r))); simpl; lia.
Qed.

Lemma policy_counts_sum (df : list PolicyRow) :
  zsum (map Policy_Count (calculate_reserve_requirements df)) = count (premiums df).
Proof.
  unfold calculate_reserve_requirements. rewrite map_map.
  rewrite (map_ext _ (fun grp => count (premiums (snd grp))))
    by (now intros [c rows]).
  rewrite (group_sum_Z (fun rows => count (premiums rows))) by reflexivity.
  apply count_partition.
Qed.

Lemma qsum_map_qval (l : list float64) :
  qsum l = fold_right Qplus 0 (map qval l).
Proof. induction l as [| a l IH]; simpl; [reflexivity | now rewrite IH]. Qed.

Lemma whole_cents_finite (a : float64) : whole_cents a -> finite_or_missing a.
Proof. destruct a; simpl; auto. Qed.

Lemma qsum_cents (l : list float64) :
  Forall whole_cents l -> exists z : Z, qsum l == z # 100.
Proof.
  induction 1 as [| a l Ha _ [z Hz]]; simpl.
  - exists 0%Z. reflexivity.
  - destruct a as [| | | q]; simpl in *; try contradiction.
    + exists z. lra.
    + destruct Ha as [y Hy]. exists (y + z)%Z. rewrite Hy, Hz.
      unfold Qeq, Qplus. simpl. lia.
Qed.

(** [rint] leaves an integer unchanged. *)
Lemma rint_integer (x : Q) (z : Z) : x == inject_Z z -> rint x = z.
Proof.
  intro H. unfold rint.
  assert (Hf : Qfloor x = z) by (rewrite H; apply Qfloor_Z).
  rewrite Hf.
  assert (E : x - inject_Z z == 0) by (rewrite H; ring).
  assert (Hc : (x - inject_Z z ?= 1 # 2) = Lt)
    by (apply Qlt_alt; rewrite E; reflexivity).
  now rewrite Hc.
Qed.

(** Rounding to two decimals leaves a whole number of cents unchanged. *)
Lemma round2_cents (q : Q) (z : Z) :
  q == z # 100 -> exists q', round2 (Fin q) = Fin q' /\ q' == q.
Proof.
  intro H. eexists. split; [reflexivity |].
  assert (Hz : q * 100 == inject_Z z).
  { rewrite H. unfold Qeq, Qmult, inject_Z. simpl. lia. }
  rewrite (rint_integer _ _ Hz), H.
  unfold Qeq, Qdiv, Qmult, Qinv, inject_Z. simpl. lia.
Qed.

Lemma categories_NoDup (df : list PolicyRow) :
  NoDup (map Category (calculate_reserve_requirements df)).
Proof.
  unfold calculate_reserve_requirements. rewrite map_map.
  rewrite (map_ext _ fst) by (now intros [c rows]).
  unfold groupby_risk, sorted_categories. simpl.
  each_group df; repeat constructor; simpl; intuition discriminate.
Qed.

(** A category has a reserve row exactly when some row of the frame is in it. *)
Lemma categories_observed (df : list PolicyRow) (c : RiskCategory) :
  In c (map Category (calculate_reserve_requirements df)) <->
  exists p, In p df /\ Risk_Category p = c.
Proof.
  unfold calculate_reserve_requirements. rewrite map_map.
  rewrite (map_ext _ fst) by (now intros [c' rows]).
  rewrite in_map_iff. split.
  - intros [[c' rows] [Hc Hin]]. simpl in Hc. subst c'.
    apply groupby_risk_In in Hin. destruct Hin as [-> Hne].
    destruct (filter _ df) as [| p rest] eqn:E; [contradiction |].
    assert (Hp : In p (filter (fun r => RiskCategory_eqb (Risk_Category r) c) df))
      by (rewrite E; now left).
    apply filter_In in Hp. destruct Hp as [Hp Hcat].
    exists p. split; [assumption | now apply RiskCategory_eqb_eq].
  - intros [p [Hp Hcat]].
    exists (c, filter (fun r => RiskCategory_eqb (Risk_Category r) c) df).
    split; [reflexivity |]. apply groupby_risk_In. split; [reflexivity |].
    assert (Hin : In p (filter (fun r => RiskCategory_eqb (Risk_Category r) c) df)).
    { apply filter_In. split; [assumption | now apply RiskCategory_eqb_eq]. }
    intro E. rewrite E in Hin. contradiction.
Qed.

(** C7, the claim as stated fails on a table with a missing premium and with
    premiums of more than two decimals: the policy counts of the groups sum to
    2 for 3 rows, and the group totals, rounded to 100.00 and 200.00, sum to
    300 for a portfolio total of 300.008. *)
Lemma C7_uneven_table_totals_differ :
  let df := load_and_prepare_data uneven_table in
  let ra := calculate_reserve_requirements df in
  zsum (map Policy_Count ra) <> Z.of_nat (List.length df) /\
  ~ (nansum (map Total_Premiums ra) == nansum (premiums df))%f64.
Proof.
  vm_compute. split; intro H; discriminate H.
Qed.

End Aggregator.

(** * Further properties: reserves, recommendations and capital adequacy *)

Section ReserveBounds.

Import ReserveMonitoring.

Lemma nonneg_finite (a : float64) : nonneg_or_missing a -> finite_or_missing a.
Proof. destruct a; simpl; auto. Qed.

Lemma qsum_nonneg (l : list float64) :
  Forall nonneg_or_missing l -> 0 <= qsum l.
Proof.
  induction 1 as [| a l Ha _ IH]; simpl; [lra |].
  destruct a; simpl in *; try contradiction; lra.
Qed.

Lemma rint_nonneg (x : Q) : 0 <= x -> (0 <= rint x)%Z.
Proof.
  intro H. unfold rint.
  assert (Hf : (0 <= Qfloor x)%Z).
  { change 0%Z with (Qfloor 0). now apply Qfloor_resp_le. }
  destruct (x - inject_Z (Qfloor x) ?= 1 # 2); [destruct (Z.even _) | |]; lia.
Qed.

Lemma rint_comp (x y : Q) : x == y -> rint x = rint y.
Proof.
  intro H. unfold rint. rewrite (Qfloor_comp x y H).
  now rewrite (Qcompare_comp (x - inject_Z (Qfloor y)) (y - inject_Z (Qfloor y))
                             ltac:(now rewrite H) (1 # 2) (1 # 2) (Qeq_refl _)).
Qed.

Lemma round2_comp (x y : Q) :
  x == y -> qval (round2 (Fin x)) == qval (round2 (Fin y)).
Proof.
  intro H. simpl. rewrite (rint_comp (x * 100) (y * 100)); [reflexivity |].
  now rewrite H.
Qed.

Lemma round2_nonneg (q : Q) :
  0 <= q -> exists q', round2 (Fin q) = Fin q' /\ 0 <= q'.
Proof.
  intro H. eexists. split; [reflexivity |].
  assert (Hz : (0 <= rint (q * 100))%Z) by (apply rint_nonneg; lra).
  revert Hz. generalize (rint (q * 100)). intros z Hz.
  unfold Qle, Qdiv, Qmult, Qinv, inject_Z. simpl. lia.
Qed.

Lemma nonneg_claims_list (rows : list PolicyRow) :
  nonneg_claims rows -> Forall nonneg_or_missing (claims rows).
Proof. unfold nonneg_claims, claims. now rewrite Forall_map. Qed.

Lemma nonneg_premiums_list (rows : list PolicyRow) :
  nonneg_premiums rows -> Forall nonneg_or_missing (premiums rows).
Proof. unfold nonneg_premiums, premiums. now rewrite Forall_map. Qed.

Lemma nonneg_premiums_clean (rows : list PolicyRow) :
  nonneg_premiums rows -> nonneg_claims rows -> clean rows.
Proof.
  unfold nonneg_premiums, nonneg_claims, clean. rewrite !Forall_forall.
  intros Hp Hc r Hr. split; apply nonneg_finite; auto.
Qed.

(** The maximum of four finite cells is finite, one of them and above each. *)
Lemma nanmax_four (a b c d : Q) :
  exists t, nanmax [Fin a; Fin b; Fin c; Fin d] = Fin t /\
            (t = a \/ t = b \/ t = c \/ t = d) /\
            a <= t /\ b <= t /\ c <= t /\ d <= t.
Proof.
  set (l := [Fin a; Fin b; Fin c; Fin d]).
  assert (Hge : forall x, In (Fin x) l -> fle (Fin x) (nanmax l) = true)
    by (intros x Hx; now apply nanmax_ge).
  assert (Ha := Hge a (or_introl eq_refl)).
  assert (Hb := Hge b (or_intror (or_introl eq_refl))).
  assert (Hc := Hge c (or_intror (or_intror (or_introl eq_refl)))).
  assert (Hd := Hge d (or_intror (or_intror (or_intror (or_introl eq_refl))))).
  assert (Hin : In (nanmax l) l) by (apply nanmax_In; discriminate).
  destruct Hin as [E | [E | [E | [E | []]]]]; rewrite <- E in *;
    eexists; (split; [reflexivity |]);
    simpl in Ha, Hb, Hc, Hd; apply Qle_bool_iff in Ha, Hb, Hc, Hd; auto 10.
Qed.

(** The cells of a reserve row on data without infinite cells. *)
Lemma reserve_row_cells (c : RiskCategory) (rows : list PolicyRow) :
  clean rows ->
  let r := reserve_row (c, rows) in
  exists p k m t : Q,
    Spec.multiplier c = Fin m /\
    p == qval (round2 (Fin (qsum (premiums rows)))) /\
    k == qval (round2 (Fin (qsum (claims rows)))) /\
    Total_Premiums r = Fin p /\ Total_Claims r = Fin k /\
    Premium_Based_Reserves r = Fin (p * (15 # 100)) /\
    Claims_Based_Reserves r = Fin (k * inject_Z 1000 * inject_Z 3) /\
    Risk_Adjusted_Reserves r = Fin (p * m) /\
    IBNR_Reserves r = Fin (p * (5 # 100)) /\
    Total_Required_Reserves r = Fin t /\
    (t = p * (15 # 100) \/ t = k * inject_Z 1000 * inject_Z 3 \/
     t = p * m \/ t = p * (5 # 100)) /\
    p * (15 # 100) <= t /\ k * inject_Z 1000 * inject_Z 3 <= t /\
    p * m <= t /\ p * (5 # 100) <= t /\
    Actual_Claims_Exposure r = Fin (k * inject_Z 1000) /\
    Reserve_Adequacy r = Fin (t + - (k * inject_Z 1000)) /\
    Reserve_Ratio r = fdiv (Fin t) (Fin (k * inject_Z 1000)).
Proof.
  intros Hc r.
  destruct (nansum_finite _ (clean_premiums rows Hc)) as [p0 [Ep Hp0]].
  destruct (nansum_finite _ (clean_claims rows Hc)) as [k0 [Ek Hk0]].
  assert (Hm : exists m, Spec.multiplier c = Fin m)
    by (destruct c; eexists; reflexivity).
  destruct Hm as [m Hm].
  set (p := inject_Z (rint (p0 * 100)) / 100).
  set (k := inject_Z (rint (k0 * 100)) / 100).
  destruct (nanmax_four (p * (15 # 100)) (k * inject_Z 1000 * inject_Z 3)
                        (p * m) (p * (5 # 100)))
    as [t [Et [Hin [H1 [H2 [H3 H4]]]]]].
  exists p, k, m, t.
  subst r.
  cbv beta iota zeta delta
    [reserve_row Premium_Based_Reserves Claims_Based_Reserves
     Risk_Adjusted_Reserves IBNR_Reserves Total_Required_Reserves
     Total_Premiums Total_Claims Actual_Claims_Exposure Reserve_Adequacy
     Reserve_Ratio].
  rewrite multiplier_lookup, Hm, Ep, Ek.
  change (round2 (Fin p0)) with (Fin p).
  change (round2 (Fin k0)) with (Fin k).
  change (Fin p * dec 15 100)%f64 with (Fin (p * (15 # 100))).
  change (Fin p * dec 5 100)%f64 with (Fin (p * (5 # 100))).
  change (Fin p * Fin m)%f64 with (Fin (p * m)).
  change (Fin k * lit 1000 * lit 3)%f64
    with (Fin (k * inject_Z 1000 * inject_Z 3)).
  change (Fin k * lit 1000)%f64 with (Fin (k * inject_Z 1000)).
  rewrite Et.
  split; [reflexivity |].
  split.
  { exact (round2_comp p0 _ Hp0). }
  split.
  { exact (round2_comp k0 _ Hk0). }
  repeat (split; [first [reflexivity | assumption] |]).
  reflexivity.
Qed.

(** On data without infinite cells and with claims that are not negative,
    every reserve row is covered. *)
Lemma reserve_row_covered (c : RiskCategory) (rows : list PolicyRow) :
  clean rows -> nonneg_claims rows -> covered_row (reserve_row (c, rows)).
Proof.
  intros Hc Hn.
  destruct (reserve_row_cells c rows Hc)
    as [p [k [m [t [_ [_ [Hk [Ep [Ek [_ [_ [_ [_ [Et [_ [_ [H2 [_ [_ [Ee [Ea Er]]]]]]]]]]]]]]]]]]]]].
  exists p, k, t. repeat (split; [assumption |]).
  assert (H0 : 0 <= k).
  { assert (Hq : 0 <= qsum (claims rows))
      by (apply qsum_nonneg; now apply nonneg_claims_list).
    destruct (round2_nonneg _ Hq) as [q' [E Hq']].
    rewrite Hk, E. exact Hq'. }
  split; [exact H0 |]. split; [exact Et |].
  split; [| repeat split; assumption].
  unfold inject_Z in *. lra.
Qed.

Lemma reserve_rows_covered (df : list PolicyRow) :
  clean df -> nonneg_claims df ->
  Forall covered_row (calculate_reserve_requirements df).
Proof.
  intros Hc Hn. apply Forall_forall. intros r Hr.
  destruct (reserve_rows_In df r Hr) as [c [rows [-> Hg]]].
  apply groupby_risk_In in Hg. destruct Hg as [-> _].
  apply reserve_row_covered; now apply filter_subset_Forall.
Qed.

Lemma covered_ratio (r : ReserveRow) :
  covered_row r ->
  Reserve_Ratio r = PosInf \/ Reserve_Ratio r = NaN \/
  exists q, Reserve_Ratio r = Fin q /\ 3 <= q.
Proof.
  intros [p [k [t [_ [_ [Hk [_ [Ht [_ [_ ->]]]]]]]]]]. simpl.
  destruct (Qeq_bool (k * inject_Z 1000) 0) eqn:E.
  - apply Qeq_bool_iff in E.
    assert (H0 : 0 <= t) by (unfold inject_Z in *; lra).
    unfold Qsgn. destruct (t ?= 0) eqn:C; auto.
    apply Qlt_alt in C. lra.
  - right. right. eexists. split; [reflexivity |].
    assert (Hpos : 0 < k * inject_Z 1000).
    { destruct (Qlt_le_dec 0 (k * inject_Z 1000)) as [Hl | Hl]; [exact Hl |].
      assert (Heq : k * inject_Z 1000 == 0) by (unfold inject_Z in *; lra).
      apply Qeq_bool_iff in Heq. congruence. }
    now apply Qle_shift_div_l.
Qed.

Lemma covered_adequacy (r : ReserveRow) :
  covered_row r -> nonneg_or_missing (Reserve_Adequacy r).
Proof.
  intros [p [k [t [_ [_ [Hk [_ [Ht [_ [-> _]]]]]]]]]]. simpl.
  unfold inject_Z in *. lra.
Qed.

(** X1.  On data without infinite cells and with claims that are not negative,
    the required reserves of every category are at least three times its
    claims exposure: the adequacy is never negative, and the reserve ratio is
    +infinity or [NaN] (no exposure) or at least 3. *)
Theorem reserves_cover_three_times_exposure (df : list PolicyRow) :
  clean df -> nonneg_claims df ->
  Forall (fun r =>
            fle (Actual_Claims_Exposure r * lit 3)%f64 (Total_Required_Reserves r)
            = true /\
            fle (lit 0) (Reserve_Adequacy r) = true /\
            (Reserve_Ratio r = PosInf \/ Reserve_Ratio r = NaN \/
             fle (lit 3) (Reserve_Ratio r) = true))
         (calculate_reserve_requirements df).
Proof.
  intros Hc Hn. pose proof (reserve_rows_covered df Hc Hn) as H.
  revert H. apply Forall_impl. intros r Hr.
  pose proof (covered_ratio r Hr) as Hratio.
  pose proof (covered_adequacy r Hr) as Hadq.
  destruct Hr as [p [k [t [_ [_ [Hk [Et [Ht [Ee [Ea _]]]]]]]]]].
  rewrite Et, Ee. split; [| split].
  - simpl. apply Qle_bool_iff. unfold inject_Z in *. lra.
  - rewrite Ea in *. simpl in *. apply Qle_bool_iff. exact Hadq.
  - destruct Hratio as [E | [E | [q [E Hq]]]]; auto.
    right. right. rewrite E. simpl. now apply Qle_bool_iff.
Qed.

Lemma reserves_cover_three_times_exposure_witness :
  Forall (fun r =>
            fle (Actual_Claims_Exposure r * lit 3)%f64 (Total_Required_Reserves r)
            = true /\
            fle (lit 0) (Reserve_Adequacy r) = true /\
            (Reserve_Ratio r = PosInf \/ Reserve_Ratio r = NaN \/
             fle (lit 3) (Reserve_Ratio r) = true))
         (calculate_reserve_requirements (load_and_prepare_data mixed_table)).
Proof.
  apply (reserves_cover_three_times_exposure (load_and_prepare_data mixed_table)).
  - vm_compute. repeat constructor.
  - vm_compute. repeat constructor; discriminate.
Defined.

End ReserveBounds.

Section Recommendations.

Import ReserveMonitoring.

Lemma recommend_covered (r : ReserveRow) :
  covered_row r ->
  recommend_row r
  = mkRecommendation (label (Category r)) "Adequate Reserves"
                     (Reserve_Adequacy r) Maintain_current_levels "Low".
Proof.
  intro Hr. pose proof (covered_ratio r Hr) as Hratio.
  pose proof (covered_adequacy r Hr) as Hadq.
  unfold recommend_row.
  assert (Ha : flt (Reserve_Adequacy r) (lit 0) = false).
  { destruct (Reserve_Adequacy r); simpl in *; try contradiction; auto.
    now apply Qlt_bool_false_iff. }
  assert (Hb : flt (Reserve_Ratio r) (dec 12 10) = false).
  { destruct Hratio as [-> | [-> | [q [-> Hq]]]]; try reflexivity.
    simpl. apply Qlt_bool_false_iff. lra. }
  now rewrite Ha, Hb.
Qed.

(** A sum of cells none of which is negative is not negative. *)
Lemma fold_fadd_not_negative (l : list float64) : forall acc,
  flt acc (lit 0) = false -> isnan acc = false ->
  Forall (fun a => flt a (lit 0) = false) l ->
  flt (fold_left fadd (filter notnan l) acc) (lit 0) = false.
Proof.
  induction l as [| a l IH]; intros acc Hacc Hn Hl; simpl; [assumption |].
  inversion Hl as [| ? ? Ha Hl']; subst.
  destruct a as [| | | q]; simpl.
  - now apply IH.
  - simpl in Ha. discriminate Ha.
  - apply IH; [| | assumption];
      destruct acc; simpl in *; congruence.
  - apply IH; [| | assumption].
    + destruct acc as [| | | x]; simpl in *; try congruence.
      apply Qlt_bool_false_iff in Hacc, Ha. apply Qlt_bool_false_iff.
      unfold inject_Z in *. lra.
    + destruct acc; simpl in *; congruence.
Qed.

Lemma nansum_negative_has_negative (l : list float64) :
  flt (nansum l) (lit 0) = true -> exists a, In a l /\ flt a (lit 0) = true.
Proof.
  intro H.
  destruct (existsb (fun a => flt a (lit 0)) l) eqn:E.
  - apply existsb_exists in E. exact E.
  - exfalso.
    assert (Hl : Forall (fun a => flt a (lit 0) = false) l).
    { apply Forall_forall. intros a Ha.
      destruct (flt a (lit 0)) eqn:Ea; [| reflexivity].
      assert (Hex : existsb (fun a => flt a (lit 0)) l = true)
        by (apply existsb_exists; eauto).
      congruence. }
    unfold nansum in H.
    rewrite (fold_fadd_not_negative l (Fin 0) eq_refl eq_refl Hl) in H.
    discriminate.
Qed.

(** X2.  On data without infinite cells and with claims that are not negative,
    [generate_reserve_recommendations] reports 'Adequate Reserves' with
    priority 'Low' for every category and adds no portfolio row: the
    'Inadequate Reserves', 'Low Reserve Buffer' and 'Portfolio-wide Reserve
    Shortfall' branches are never taken. *)
Theorem recommendations_always_adequate (df : list PolicyRow) :
  clean df -> nonneg_claims df ->
  generate_reserve_recommendations (calculate_reserve_requirements df)
  = map (fun r =>
           mkRecommendation (label (Category r)) "Adequate Reserves"
                            (Reserve_Adequacy r) Maintain_current_levels "Low")
        (calculate_reserve_requirements df).
Proof.
  intros Hc Hn. pose proof (reserve_rows_covered df Hc Hn) as Hcov.
  unfold generate_reserve_recommendations.
  assert (Hsum : flt (nansum (map Reserve_Adequacy
                                  (calculate_reserve_requirements df)))
                     (lit 0) = false).
  { destruct (flt _ (lit 0)) eqn:E; [| reflexivity].
    apply nansum_negative_has_negative in E. destruct E as [a [Ha Hneg]].
    apply in_map_iff in Ha. destruct Ha as [r [<- Hr]].
    rewrite Forall_forall in Hcov.
    pose proof (covered_adequacy r (Hcov r Hr)) as Hadq.
    destruct (Reserve_Adequacy r); simpl in *; try contradiction;
      try discriminate.
    apply Qlt_bool_iff in Hneg. unfold inject_Z in *. lra. }
  rewrite Hsum. apply map_ext_in. intros r Hr.
  rewrite Forall_forall in Hcov. exact (recommend_covered r (Hcov r Hr)).
Qed.

Lemma recommendations_always_adequate_witness :
  generate_reserve_recommendations
    (calculate_reserve_requirements (load_and_prepare_data mixed_table))
  = map (fun r =>
           mkRecommendation (label (Category r)) "Adequate Reserves"
                            (Reserve_Adequacy r) Maintain_current_levels "Low")
        (calculate_reserve_requirements (load_and_prepare_data mixed_table)).
Proof.
  apply (recommendations_always_adequate (load_and_prepare_data mixed_table)).
  - vm_compute. repeat constructor.
  - vm_compute. repeat constructor; discriminate.
Defined.

(** X3.  For any reserve table, the 'Critical' portfolio-wide recommendation
    is issued only when some category is reported with 'Inadequate Reserves':
    the recommendations hold one row per category, in order, and a row named
    'Overall Portfolio' follows them exactly when the adequacies sum to less
    than 0, in which case one of the categories has a negative adequacy. *)
Theorem portfolio_shortfall_needs_inadequate_category
        (reserve_analysis : list ReserveRow) :
  let recs := generate_reserve_recommendations reserve_analysis in
  map Rec_Risk_Category (firstn (List.length reserve_analysis) recs)
  = map (fun r => label (Category r)) reserve_analysis /\
  (flt (nansum (map Reserve_Adequacy reserve_analysis)) (lit 0) = false ->
   recs = map recommend_row reserve_analysis /\
   Forall (fun rec => Priority rec <> "Critical"%string) recs) /\
  (flt (nansum (map Reserve_Adequacy reserve_analysis)) (lit 0) = true ->
   (exists last, recs = map recommend_row reserve_analysis ++ [last] /\
                 Rec_Risk_Category last = "Overall Portfolio"%string /\
                 Priority last = "Critical"%string) /\
   exists r, In r reserve_analysis /\
             Issue (recommend_row r) = "Inadequate Reserves"%string).
Proof.
  intro recs. subst recs. unfold generate_reserve_recommendations.
  assert (Hcat : map Rec_Risk_Category (map recommend_row reserve_analysis)
                 = map (fun r => label (Category r)) reserve_analysis).
  { rewrite map_map. apply map_ext. intro r. unfold recommend_row.
    destruct (flt (Reserve_Adequacy r) (lit 0));
      [| destruct (flt (Reserve_Ratio r) (dec 12 10))]; reflexivity. }
  assert (Hlen : List.length reserve_analysis
                 = List.length (map recommend_row reserve_analysis))
    by (now rewrite length_map).
  split; [| split].
  - destruct (flt _ (lit 0)).
    + rewrite Hlen, firstn_app, Nat.sub_diag, firstn_all. simpl.
      now rewrite app_nil_r.
    + now rewrite Hlen, firstn_all.
  - intros ->. split; [reflexivity |].
    apply Forall_forall. intros rec Hrec. apply in_map_iff in Hrec.
    destruct Hrec as [r [<- _]]. unfold recommend_row.
    destruct (flt (Reserve_Adequacy r) (lit 0));
      [destruct (flt (Reserve_Ratio r) (dec 5 10))
      | destruct (flt (Reserve_Ratio r) (dec 12 10))]; discriminate.
  - intros H. rewrite H. split.
    + eexists. repeat split.
    + apply nansum_negative_has_negative in H. destruct H as [a [Ha Hneg]].
      apply in_map_iff in Ha. destruct Ha as [r [<- Hr]].
      exists r. split; [assumption |]. unfold recommend_row. now rewrite Hneg.
Qed.

Lemma portfolio_shortfall_needs_inadequate_category_witness :
  let ra := calculate_reserve_requirements (load_and_prepare_data mixed_table) in
  generate_reserve_recommendations ra = map recommend_row ra /\
  Forall (fun rec => Priority rec <> "Critical"%string)
         (generate_reserve_recommendations ra).
Proof.
  intro ra.
  apply (proj1 (proj2 (portfolio_shortfall_needs_inadequate_category ra))).
  vm_compute. reflexivity.
Defined.

End Recommendations.

Section BindingMethod.

Import ReserveMonitoring.

(** X4.  On data without infinite cells and with premiums that are not
    negative, the IBNR amount never exceeds the premium-based amount, and the
    total required reserves are the larger of the claims-based amount and the
    premium-based amount for the Low and Medium categories, and the larger of
    the claims-based amount and the risk-adjusted amount for the High and
    Very High categories. *)
Theorem binding_reserve_method (df : list PolicyRow) :
  clean df -> nonneg_premiums df ->
  Forall (fun r =>
            fle (IBNR_Reserves r) (Premium_Based_Reserves r) = true /\
            match Category r with
            | Low | Medium =>
                (Total_Required_Reserves r
                 == fmax (Claims_Based_Reserves r) (Premium_Based_Reserves r))%f64
            | High | Very_High =>
                (Total_Required_Reserves r
                 == fmax (Claims_Based_Reserves r) (Risk_Adjusted_Reserves r))%f64
            end)
         (calculate_reserve_requirements df).
Proof.
  intros Hc Hn. apply Forall_forall. intros r Hr.
  destruct (reserve_rows_In df r Hr) as [c [rows [-> Hg]]].
  apply groupby_risk_In in Hg. destruct Hg as [Hrows _].
  assert (Hc' : clean rows) by (rewrite Hrows; now apply filter_subset_Forall).
  assert (Hn' : nonneg_premiums rows)
    by (rewrite Hrows; now apply filter_subset_Forall).
  destruct (reserve_row_cells c rows Hc')
    as [p [k [m [t [Hm [Hp [_ [_ [_ [Epb [Ecb [Era [Ei [Et
       [Hin [H1 [H2 [H3 [H4 _]]]]]]]]]]]]]]]]]]].
  assert (H0 : 0 <= p).
  { assert (Hq : 0 <= qsum (premiums rows))
      by (apply qsum_nonneg; now apply nonneg_premiums_list).
    destruct (round2_nonneg _ Hq) as [q' [E Hq']].
    rewrite Hp, E. exact Hq'. }
  rewrite Epb, Ecb, Era, Ei, Et.
  change (Category (reserve_row (c, rows))) with c.
  split.
  - simpl. apply Qle_bool_iff. lra.
  - unfold fmax. simpl flt.
    destruct c; simpl in Hm; injection Hm as <-;
      match goal with
      | |- context [Qlt_bool ?a ?b] =>
          destruct (Qlt_bool a b) eqn:E;
          [apply Qlt_bool_iff in E | apply Qlt_bool_false_iff in E]
      end;
      simpl; destruct Hin as [-> | [-> | [-> | ->]]]; lra.
Qed.

Lemma binding_reserve_method_witness :
  Forall (fun r =>
            fle (IBNR_Reserves r) (Premium_Based_Reserves r) = true /\
            match Category r with
            | Low | Medium =>
                (Total_Required_Reserves r
                 == fmax (Claims_Based_Reserves r) (Premium_Based_Reserves r))%f64
            | High | Very_High =>
                (Total_Required_Reserves r
                 == fmax (Claims_Based_Reserves r) (Risk_Adjusted_Reserves r))%f64
            end)
         (calculate_reserve_requirements (load_and_prepare_data mixed_table)).
Proof.
  apply (binding_reserve_method (load_and_prepare_data mixed_table)).
  - vm_compute. repeat constructor.
  - vm_compute. repeat constructor; discriminate.
Defined.

End BindingMethod.

Section CapitalAdequacy.

Import ReserveMonitoring.





End CapitalAdequacy.

(** * Further properties: the stress tester *)

Section StressOrder.

Import ReserveMonitoring.

Lemma Qle_div_iff (a b c : Q) : 0 < c -> (b <= a / c <-> b * c <= a).
Proof.
  intro Hc. split; intro H.
  - assert (E : a == a / c * c) by (field; lra).
    rewrite E. apply Qmult_le_compat_r; lra.
  - now apply Qle_shift_div_l.
Qed.

(** X7.  With the portfolio totals and the premium multiplier held fixed and
    total claims that are not negative, a larger claims multiplier never
    raises the capital adequacy of a stress scenario: a scenario reported
    'Inadequate' stays 'Inadequate' under any larger claims multiplier. *)
Theorem stress_adequacy_antitone
        (P C pm m1 m2 : Q) (n : Z) (avg : float64) (name1 name2 d1 d2 : string) :
  0 <= C -> m1 <= m2 ->
  let base := mkBaseMetrics (Fin P) (Fin C) n avg in
  let r1 := stress_scenario base (mkScenario name1 (Fin m1) (Fin pm) d1) in
  let r2 := stress_scenario base (mkScenario name2 (Fin m2) (Fin pm) d2) in
  fle (Capital_Adequacy r2) (Capital_Adequacy r1) = true /\
  (Adequacy_Status r1 = "Inadequate"%string ->
   Adequacy_Status r2 = "Inadequate"%string).
Proof.
  intros HC Hm base r1 r2.
  assert (E1 : Capital_Adequacy r1
               = Fin (P * pm * (15 # 100) + - (C * m1 * inject_Z 1000)))
    by reflexivity.
  assert (E2 : Capital_Adequacy r2
               = Fin (P * pm * (15 # 100) + - (C * m2 * inject_Z 1000)))
    by reflexivity.
  assert (Hle : C * m1 <= C * m2) by nra.
  assert (H : fle (Capital_Adequacy r2) (Capital_Adequacy r1) = true).
  { rewrite E1, E2. simpl. apply Qle_bool_iff. unfold inject_Z. lra. }
  split; [exact H |].
  intro H1.
  apply (proj2 (status_cases base _)) in H1.
  apply (proj2 (status_cases base _)).
  fold r1 in H1. fold r2. unfold fge in *.
  destruct (fle (lit 0) (Capital_Adequacy r2)) eqn:E; [| reflexivity].
  rewrite (fle_trans _ _ _ E H) in H1. discriminate.
Qed.

Lemma stress_adequacy_antitone_witness :
  let base := mkBaseMetrics (Fin 1000000) (Fin 300) 1000 (dec 3 10) in
  let r1 := stress_scenario base (mkScenario "Mild Stress" (Fin (12 # 10)) (Fin 1) "") in
  let r2 := stress_scenario base (mkScenario "Severe Stress" (Fin 2) (Fin 1) "") in
  fle (Capital_Adequacy r2) (Capital_Adequacy r1) = true /\
  (Adequacy_Status r1 = "Inadequate"%string ->
   Adequacy_Status r2 = "Inadequate"%string).
Proof.
  apply (stress_adequacy_antitone 1000000 300 1 (12 # 10) 2 1000 (dec 3 10)
           "Mild Stress" "Severe Stress" "" "").
  - discriminate.
  - discriminate.
Defined.

(** X8.  On data without infinite cells whose premiums and claims are not
    negative, no scenario of the catalog has a higher capital adequacy than
    'Base Case', the first row of the stress results: when the base case is
    'Inadequate', all six scenarios are. *)
Theorem base_case_is_best_case (df : list PolicyRow) :
  nonneg_premiums df -> nonneg_claims df ->
  exists base_case rest,
    perform_stress_testing df = base_case :: rest /\
    Scenario_Name base_case = "Base Case"%string /\
    Forall (fun r => fle (Capital_Adequacy r) (Capital_Adequacy base_case) = true)
           (perform_stress_testing df) /\
    (Adequacy_Status base_case = "Inadequate"%string ->
     Forall (fun r => Adequacy_Status r = "Inadequate"%string)
            (perform_stress_testing df)).
Proof.
  intros Hp Hc.
  destruct (nansum_finite (premiums df)) as [P [EP HP]].
  { revert Hp. unfold nonneg_premiums, premiums. rewrite Forall_map.
    apply Forall_impl. intros r. apply nonneg_finite. }
  destruct (nansum_finite (claims df)) as [C [EC HC]].
  { revert Hc. unfold nonneg_claims, claims. rewrite Forall_map.
    apply Forall_impl. intros r. apply nonneg_finite. }
  assert (HP0 : 0 <= P)
    by (rewrite HP; apply qsum_nonneg; now apply nonneg_premiums_list).
  assert (HC0 : 0 <= C)
    by (rewrite HC; apply qsum_nonneg; now apply nonneg_claims_list).
  set (b := stress_scenario (base_metrics df)
              (mkScenario "Base Case" (dec 10 10) (dec 10 10)
                          "Current baseline scenario")).
  assert (Hall : Forall
            (fun s => fle (Capital_Adequacy (stress_scenario (base_metrics df) s))
                          (Capital_Adequacy b) = true)
            scenarios).
  { unfold scenarios, b.
    repeat constructor;
      cbv beta iota zeta delta
        [stress_scenario base_metrics Capital_Adequacy total_premiums
         total_claims claims_multiplier premium_multiplier];
      rewrite EP, EC; simpl; apply Qle_bool_iff; unfold inject_Z; lra. }
  exists b, (map (stress_scenario (base_metrics df)) (tl scenarios)).
  split; [reflexivity |]. split; [reflexivity |].
  unfold perform_stress_testing. split.
  - apply Forall_map. exact Hall.
  - intro Hbase. apply (proj2 (status_cases (base_metrics df) _)) in Hbase.
    fold b in Hbase. apply Forall_map. revert Hall. apply Forall_impl.
    intros s Hs. apply (proj2 (status_cases (base_metrics df) s)).
    unfold fge in *.
    destruct (fle (lit 0) (Capital_Adequacy (stress_scenario (base_metrics df) s)))
      eqn:E; [| reflexivity].
    rewrite (fle_trans _ _ _ E Hs) in Hbase. discriminate.
Qed.

Lemma base_case_is_best_case_witness :
  exists base_case rest,
    perform_stress_testing (load_and_prepare_data mixed_table) = base_case :: rest /\
    Scenario_Name base_case = "Base Case"%string /\
    Forall (fun r => fle (Capital_Adequacy r) (Capital_Adequacy base_case) = true)
           (perform_stress_testing (load_and_prepare_data mixed_table)) /\
    (Adequacy_Status base_case = "Inadequate"%string ->
     Forall (fun r => Adequacy_Status r = "Inadequate"%string)
            (perform_stress_testing (load_and_prepare_data mixed_table))).
Proof.
  apply (base_case_is_best_case (load_and_prepare_data mixed_table)).
  - vm_compute. repeat constructor; discriminate.
  - vm_compute. repeat constructor; discriminate.
Defined.

(** X9.  In a stress scenario with finite totals and a positive claims
    exposure, the status is 'Adequate' exactly when the capital ratio is at
    least 1. *)
Theorem adequate_iff_capital_ratio_at_least_one
        (P C pm cm : Q) (n : Z) (avg : float64) (name d : string) :
  0 < C * cm ->
  let r := stress_scenario (mkBaseMetrics (Fin P) (Fin C) n avg)
                           (mkScenario name (Fin cm) (Fin pm) d) in
  Adequacy_Status r = "Adequate"%string <-> fle (lit 1) (Capital_Ratio r) = true.
Proof.
  intros He r.
  pose proof (proj1 (status_cases (mkBaseMetrics (Fin P) (Fin C) n avg)
                                  (mkScenario name (Fin cm) (Fin pm) d))) as Hs.
  fold r in Hs. rewrite Hs. clear Hs.
  assert (Hpos : 0 < C * cm * inject_Z 1000) by (unfold inject_Z; lra).
  assert (EA : fge (Capital_Adequacy r) (lit 0)
               = Qle_bool (inject_Z 0)
                          (P * pm * (15 # 100) + - (C * cm * inject_Z 1000)))
    by reflexivity.
  assert (ER : Capital_Ratio r
               = Fin (P * pm * (15 # 100) / (C * cm * inject_Z 1000))).
  { assert (E : Capital_Ratio r
                = if Qlt_bool (inject_Z 0) (C * cm * inject_Z 1000)
                  then fdiv (Fin (P * pm * (15 # 100)))
                            (Fin (C * cm * inject_Z 1000))
                  else lit 0) by reflexivity.
    rewrite E. rewrite (proj2 (Qlt_bool_iff _ _)) by exact Hpos.
    simpl. rewrite Qeq_bool_nonzero by lra. reflexivity. }
  rewrite EA, ER. simpl. rewrite !Qle_bool_iff.
  rewrite (Qle_div_iff _ (inject_Z 1) _ Hpos). unfold inject_Z. split; intro; lra.
Qed.

Lemma adequate_iff_capital_ratio_at_least_one_witness :
  let r := stress_scenario (mkBaseMetrics (Fin 1000000) (Fin 300) 1000 (dec 3 10))
                           (mkScenario "Severe Stress" (Fin 2) (Fin 1) "") in
  Adequacy_Status r = "Adequate"%string <-> fle (lit 1) (Capital_Ratio r) = true.
Proof.
  apply (adequate_iff_capital_ratio_at_least_one 1000000 300 1 2 1000 (dec 3 10)
           "Severe Stress" "").
  reflexivity.
Defined.

End StressOrder.

(** * Further properties: grouping and data preparation *)

Section Grouping.

Import ReserveMonitoring.

Lemma rows_of_permutation (df : list PolicyRow) :
  Permutation (rows_of High df ++ rows_of Low df
               ++ rows_of Medium df ++ rows_of Very_High df) df.
Proof.
  unfold rows_of. induction df as [| r df IH]; [constructor |].
  simpl. destruct (Risk_Category r); simpl.
  - apply Permutation_sym, Permutation_cons_app. now apply Permutation_sym.
  - rewrite !app_assoc.
    apply Permutation_sym, Permutation_cons_app.
    rewrite <- !app_assoc. now apply Permutation_sym.
  - now apply perm_skip.
  - rewrite !app_assoc.
    apply Permutation_sym, Permutation_cons_app.
    rewrite <- !app_assoc. now apply Permutation_sym.
Qed.

(** Dropping the empty groups does not change the rows taken together. *)
Lemma concat_skip_empty {K A : Type} (l : list (K * list A)) :
  List.concat (map snd (filter (fun g => negb (is_empty (snd g))) l))
  = List.concat (map snd l).
Proof.
  induction l as [| [k rows] l IH]; [reflexivity |].
  simpl. destruct rows; simpl; now rewrite IH.
Qed.

Lemma groupby_risk_concat (df : list PolicyRow) :
  List.concat (map snd (groupby_risk df))
  = rows_of High df ++ rows_of Low df ++ rows_of Medium df ++ rows_of Very_High df.
Proof.
  unfold groupby_risk. rewrite concat_skip_empty.
  unfold sorted_categories, rows_of. simpl. now rewrite app_nil_r.
Qed.

(** X11.  [groupby('Risk Category')] loses, duplicates and misfiles no row:
    the groups taken together are a rearrangement of the frame, every group
    is non-empty and holds only rows of its own category, in frame order. *)
Theorem groupby_risk_partitions_rows (df : list PolicyRow) :
  Permutation (List.concat (map snd (groupby_risk df))) df /\
  Forall (fun g =>
            snd g <> [] /\
            snd g = filter (fun r => RiskCategory_eqb (Risk_Category r) (fst g)) df /\
            Forall (fun r => Risk_Category r = fst g) (snd g))
         (groupby_risk df).
Proof.
  split.
  - rewrite groupby_risk_concat. apply rows_of_permutation.
  - apply Forall_forall. intros [c rows] Hg. simpl.
    apply groupby_risk_In in Hg. destruct Hg as [-> Hne].
    repeat split; [assumption |].
    apply Forall_forall. intros r Hr. apply filter_In in Hr.
    now apply RiskCategory_eqb_eq.
Qed.

Lemma Forall2_map_In {A B : Type} (P : A -> B -> Prop) (f : A -> B) (l : list A) :
  (forall a, In a l -> P a (f a)) -> Forall2 P l (map f l).
Proof.
  induction l as [| a l IH]; intro H; simpl; constructor.
  - apply H. now left.
  - apply IH. intros b Hb. apply H. now right.
Qed.

(** C7, amended.  Aggregation by risk category partitions the rows: the groups
    taken together hold every row of the input exactly once, each group is
    non-empty and holds rows of its own category only; there is exactly one
    aggregate row per category observed in the input, in the order of the
    groups, and none for a category without records; the total premiums of an
    aggregate row are the sum of the present premium amounts of its group
    rounded to two decimals. *)
Theorem C7_groups_partition_rows (df : list PolicyRow) :
  Permutation (List.concat (map snd (groupby_risk df))) df /\
  Forall2 (fun g r =>
             Category r = fst g /\
             snd g <> [] /\
             Forall (fun p => Risk_Category p = fst g) (snd g) /\
             Total_Premiums r = round2 (nansum (premiums (snd g))))
          (groupby_risk df) (calculate_reserve_requirements df) /\
  NoDup (map Category (calculate_reserve_requirements df)) /\
  (forall c, In c (map Category (calculate_reserve_requirements df)) <->
             exists p, In p df /\ Risk_Category p = c).
Proof.
  split; [| split; [| split]].
  - rewrite groupby_risk_concat. apply rows_of_permutation.
  - unfold calculate_reserve_requirements. apply Forall2_map_In.
    intros [c rows] Hg. apply groupby_risk_In in Hg. destruct Hg as [-> Hne].
    cbn [fst snd]. repeat split; [assumption |].
    apply Forall_forall. intros r Hr. apply filter_In in Hr.
    now apply RiskCategory_eqb_eq.
  - apply categories_NoDup.
  - apply categories_observed.
Qed.

End Grouping.

Section Preparation.

Import ReserveMonitoring.

Lemma fillna_notnan (a v : float64) :
  isnan v = false -> isnan (fillna a v) = false.
Proof.
  intro Hv. unfold fillna. destruct (isnan a) eqn:E; assumption.
Qed.

(** X12.  [load_and_prepare_data] keeps the rows and their order: the prepared
    frame has as many rows as the input and the same premium cells; after it,
    no 'Previous Claims' cell and no 'Loss Ratio' cell is missing, and every
    row carries the category of its own score. *)
Theorem prepared_frame_invariants (raw : list Row) :
  List.length (load_and_prepare_data raw) = List.length raw /\
  map (fun r => Premium_Amount (policy r)) (load_and_prepare_data raw)
  = map Premium_Amount raw /\
  Forall (fun r =>
            isnan (Previous_Claims (policy r)) = false /\
            isnan (Loss_Ratio r) = false /\
            Risk_Score r = score_row (policy r) /\
            Risk_Category r = _categorize_risk (Risk_Score r))
         (load_and_prepare_data raw).
Proof.
  rewrite load_and_prepare_data_map. split; [| split].
  - apply length_map.
  - rewrite map_map. reflexivity.
  - apply Forall_forall. intros r Hr. apply in_map_iff in Hr.
    destruct Hr as [row [<- _]].
    cbv beta iota zeta delta
      [policy Loss_Ratio Risk_Score Risk_Category fill_missing Previous_Claims].
    repeat split.
    + now apply fillna_notnan.
    + unfold loss_ratio. now apply fillna_notnan.
Qed.

(** X13.  For a policy with a finite positive premium and claims that are
    missing or not negative, the prepared loss ratio is a finite number that
    is not negative, and it is 0 exactly when the policy has no claim. *)
Theorem loss_ratio_sign (row : Row) (p : Q) :
  Premium_Amount row = Fin p -> 0 < p ->
  nonneg_or_missing (Previous_Claims row) ->
  exists q, loss_ratio (fill_missing row) = Fin q /\ 0 <= q /\
            (q == 0 <-> qval (Previous_Claims row) == 0).
Proof.
  intros Ep Hp Hc. unfold loss_ratio, fill_missing. simpl.
  rewrite Ep.
  destruct (Previous_Claims row) as [| | | c]; simpl in *; try contradiction.
  - rewrite Qeq_bool_nonzero by lra. simpl. eexists. split; [reflexivity |].
    split; [| split; intro; [reflexivity |]].
    + unfold Qle, Qdiv, Qmult, Qinv. simpl. lia.
    + unfold Qeq, Qdiv, Qmult, Qinv. simpl. lia.
  - rewrite Qeq_bool_nonzero by lra. simpl. eexists. split; [reflexivity |].
    assert (Hq : 0 <= c * inject_Z 1000) by (unfold inject_Z; lra).
    split.
    + apply Qle_shift_div_l; [assumption | lra].
    + split; intro H.
      * assert (E : c * inject_Z 1000 == c * inject_Z 1000 / p * p)
          by (field; lra).
        rewrite H in E. unfold inject_Z in E. lra.
      * rewrite H. field. lra.
Qed.

Lemma loss_ratio_sign_witness :
  exists q, loss_ratio (fill_missing (plain_row (lit 2) (lit 5000))) = Fin q /\
            0 <= q /\
            (q == 0 <-> qval (Previous_Claims (plain_row (lit 2) (lit 5000))) == 0).
Proof.
  apply (loss_ratio_sign (plain_row (lit 2) (lit 5000)) (inject_Z 5000)).
  - reflexivity.
  - reflexivity.
  - discriminate.
Defined.

End Preparation.

(** * Further properties: the risk scorer and the derived groups *)

Section ScoreOrder.

Import ReserveMonitoring.
Local Open Scope Z_scope.

Lemma fle_flt_trans (a b c : float64) :
  fle a b = true -> flt b c = true -> flt a c = true.
Proof.
  destruct a, b, c; simpl; intros H1 H2; try discriminate; auto.
  apply Qle_bool_iff in H1. apply Qlt_bool_iff in H2.
  apply Qlt_bool_iff. lra.
Qed.

(** The contribution of an [if x < lo: +2 elif x < hi: +1] chain does not grow
    with [x]. *)
Lemma band_points_antitone (lo hi x1 x2 : float64) :
  fle x1 x2 = true ->
  (if flt x2 lo then 2 else if flt x2 hi then 1 else 0)
  <= (if flt x1 lo then 2 else if flt x1 hi then 1 else 0).
Proof.
  intro H. destruct (flt x2 lo) eqn:E2.
  - rewrite (fle_flt_trans _ _ _ H E2). lia.
  - destruct (flt x2 hi) eqn:E4.
    + rewrite (fle_flt_trans _ _ _ H E4). destruct (flt x1 lo); lia.
    + destruct (flt x1 lo); [lia |]. destruct (flt x1 hi); lia.
Qed.

(** X14.  With all other fields held fixed, the risk score never grows with
    the health score: a higher health score gives the same or a lower risk
    score. *)
Theorem score_antitone_in_health (row : Row) (h1 h2 : float64) :
  fle h1 h2 = true ->
  score_row (with_health row h2) <= score_row (with_health row h1).
Proof.
  intro H. rewrite !score_row_sum. unfold with_health.
  cbn [Age Previous_Claims Health_Score Credit_Score Smoking_Status
       Exercise_Frequency].
  pose proof (band_points_antitone (lit 20) (lit 40) h1 h2 H). lia.
Qed.

Lemma score_antitone_in_health_witness :
  score_row (with_health riskiest_row (lit 45))
  <= score_row (with_health riskiest_row (lit 15)).
Proof.
  apply (score_antitone_in_health riskiest_row (lit 15) (lit 45)). reflexivity.
Defined.

(** X15.  With all other fields held fixed, the risk score never grows with
    the credit score: a higher credit score gives the same or a lower risk
    score. *)
Theorem score_antitone_in_credit (row : Row) (c1 c2 : float64) :
  fle c1 c2 = true ->
  score_row (with_credit row c2) <= score_row (with_credit row c1).
Proof.
  intro H. rewrite !score_row_sum. unfold with_credit.
  cbn [Age Previous_Claims Health_Score Credit_Score Smoking_Status
       Exercise_Frequency].
  pose proof (band_points_antitone (lit 500) (lit 650) c1 c2 H). lia.
Qed.

Lemma score_antitone_in_credit_witness :
  score_row (with_credit riskiest_row (lit 700))
  <= score_row (with_credit riskiest_row (lit 450)).
Proof.
  apply (score_antitone_in_credit riskiest_row (lit 450) (lit 700)). reflexivity.
Defined.

End ScoreOrder.

Section LossRatios.

Lemma scaled_claims_nonneg (x : list Row) :
  Forall (fun r => nonneg_or_missing (Previous_Claims r)) x ->
  Forall nonneg_or_missing (map (fun r => (Previous_Claims r * lit 1000)%f64) x).
Proof.
  intro H. rewrite Forall_map. revert H. apply Forall_impl. intros r Hr.
  destruct (Previous_Claims r); simpl in *; try contradiction; auto.
  unfold inject_Z. lra.
Qed.

(** The guarded ratio of [calculate_loss_ratios] on any set of rows. *)
Lemma group_loss_ratio_finite (x : list Row) :
  Forall (fun r => finite_or_missing (Premium_Amount r) /\
                   nonneg_or_missing (Previous_Claims r)) x ->
  exists q, InsuranceAnalytics.group_loss_ratio x = Fin q /\ 0 <= q.
Proof.
  intro H.
  assert (Hp : Forall finite_or_missing (map Premium_Amount x)).
  { rewrite Forall_map. revert H. apply Forall_impl. now intros r [Hr _]. }
  assert (Hc : Forall nonneg_or_missing
                 (map (fun r => (Previous_Claims r * lit 1000)%f64) x)).
  { apply scaled_claims_nonneg. revert H. apply Forall_impl. now intros r [_ Hr]. }
  destruct (nansum_finite _ Hp) as [P [EP _]].
  destruct (nansum_finite _ (Forall_impl _ nonneg_finite Hc)) as [K [EK HK]].
  assert (HK0 : 0 <= K) by (rewrite HK; now apply qsum_nonneg).
  unfold InsuranceAnalytics.group_loss_ratio, fgt. rewrite EP, EK.
  cbn [flt lit].
  destruct (Qlt_bool (inject_Z 0) P) eqn:E.
  - apply Qlt_bool_iff in E. unfold inject_Z in E.
    simpl. rewrite Qeq_bool_nonzero by lra.
    eexists. split; [reflexivity |]. apply Qle_shift_div_l; lra.
  - exists (inject_Z 0). split; [reflexivity |]. unfold inject_Z. lra.
Qed.

(** X16.  On data whose premiums are finite or missing and whose claims are
    missing or not negative, the overall loss ratio and every per-category
    loss ratio of [calculate_loss_ratios] are finite numbers that are not
    negative: the guard on the premium total rules out the infinite and
    undefined ratios that the per-policy loss ratio can take. *)
Theorem loss_ratios_are_finite (df : list Row) :
  Forall (fun r => finite_or_missing (Premium_Amount r) /\
                   nonneg_or_missing (Previous_Claims r)) df ->
  (exists q, fst (InsuranceAnalytics.calculate_loss_ratios df) = Fin q /\ 0 <= q) /\
  Forall (fun cr => exists q, snd cr = Fin q /\ 0 <= q)
         (snd (InsuranceAnalytics.calculate_loss_ratios df)).
Proof.
  intro H. unfold InsuranceAnalytics.calculate_loss_ratios.
  cbn [fst snd]. split.
  - now apply group_loss_ratio_finite.
  - apply Forall_map. apply Forall_forall. intros [c rows] Hg. cbn [fst snd].
    apply filter_In in Hg. destruct Hg as [Hg _].
    apply in_map_iff in Hg. destruct Hg as [c' [E _]].
    inversion E; subst. apply group_loss_ratio_finite.
    now apply filter_subset_Forall.
Qed.

Lemma loss_ratios_are_finite_witness :
  (exists q, fst (InsuranceAnalytics.calculate_loss_ratios mixed_table) = Fin q /\
             0 <= q) /\
  Forall (fun cr => exists q, snd cr = Fin q /\ 0 <= q)
         (snd (InsuranceAnalytics.calculate_loss_ratios mixed_table)).
Proof.
  apply (loss_ratios_are_finite mixed_table).
  vm_compute. repeat constructor; discriminate.
Defined.

End LossRatios.

Section AgeGroups.

(** Case analysis on the comparisons of a rational with literals, dropping
    the impossible combinations as they appear. *)
Ltac decide_Q_tests :=
  repeat match goal with
    | |- context [Qlt_bool ?a ?b] =>
        let E := fresh "E" in
        destruct (Qlt_bool a b) eqn:E;
        [apply Qlt_bool_iff in E | apply Qlt_bool_false_iff in E];
        cbn [andb orb]; try (exfalso; lra)
    | |- context [Qle_bool ?a ?b] =>
        let E := fresh "E" in
        destruct (Qle_bool a b) eqn:E;
        [apply Qle_bool_iff in E | apply Qle_bool_false_iff in E];
        cbn [andb orb]; try (exfalso; lra)
    end.

(** X17.  The 'Age Group' cell is missing exactly for ages outside (0, 100].
    The age contribution of the scoring rule follows the age group ('26-35'
    adds 1, '36-45' to '56-65' add 0, '65+' adds 2) except at the shared
    bound: '18-25' adds 2, but an age of exactly 25 belongs to '18-25' and
    adds 1. *)
Theorem age_group_and_age_points (age : float64) :
  (InsuranceAnalytics.age_group age = None
   <-> flt (lit 0) age && fle age (lit 100) = false) /\
  (InsuranceAnalytics.age_group age = Some "18-25"%string ->
   Spec.age_points age = if fle (lit 25) age then 1%Z else 2%Z) /\
  (InsuranceAnalytics.age_group age = Some "26-35"%string ->
   Spec.age_points age = 1%Z) /\
  (InsuranceAnalytics.age_group age = Some "36-45"%string \/
   InsuranceAnalytics.age_group age = Some "46-55"%string \/
   InsuranceAnalytics.age_group age = Some "56-65"%string ->
   Spec.age_points age = 0%Z) /\
  (InsuranceAnalytics.age_group age = Some "65+"%string ->
   Spec.age_points age = 2%Z).
Proof.
  destruct age as [| | | q];
    try (vm_compute; repeat split; intros; try discriminate;
         intuition discriminate).
  unfold InsuranceAnalytics.age_group, Spec.age_points, fgt, lit, inject_Z.
  cbn [InsuranceAnalytics.cut flt fle].
  decide_Q_tests;
    repeat split; intros; try discriminate; try reflexivity;
    try (exfalso; lra); intuition discriminate.
Qed.

Lemma age_group_and_age_points_witness :
  Spec.age_points (lit 25) = (if fle (lit 25) (lit 25) then 1%Z else 2%Z).
Proof.
  apply (proj1 (proj2 (age_group_and_age_points (lit 25)))). reflexivity.
Defined.

(** X18.  For an income that is finite or missing, the 'Income Group' cell is
    missing exactly when the income is not above 0, and every income above
    200000 falls in the last group, 'High', which has no upper bound. *)
Theorem income_group_defined (annual_income : float64) :
  finite_or_missing annual_income ->
  (InsuranceAnalytics.income_group annual_income = None
   <-> flt (lit 0) annual_income = false) /\
  (flt (lit 200000) annual_income = true ->
   InsuranceAnalytics.income_group annual_income = Some "High"%string).
Proof.
  destruct annual_income as [| | | q]; intro Hf; try contradiction;
    try (vm_compute; repeat split; intros; try discriminate; reflexivity).
  unfold InsuranceAnalytics.income_group, lit, inject_Z.
  cbn [InsuranceAnalytics.cut flt fle].
  decide_Q_tests;
    repeat split; intros; try discriminate; try reflexivity;
    try (exfalso; lra).
Qed.

Lemma income_group_defined_witness :
  (InsuranceAnalytics.income_group (lit 250000) = None
   <-> flt (lit 0) (lit 250000) = false) /\
  (flt (lit 200000) (lit 250000) = true ->
   InsuranceAnalytics.income_group (lit 250000) = Some "High"%string).
Proof.
  apply (income_group_defined (lit 250000)). exact I.
Defined.

End AgeGroups.

(** * Further properties: the two reports agree on the claims exposure *)

Section ExposureAgreement.

Import ReserveMonitoring.

Lemma claims_partition (df : list PolicyRow) :
  qsum (claims (rows_of High df)) + qsum (claims (rows_of Low df))
  + qsum (claims (rows_of Medium df)) + qsum (claims (rows_of Very_High df))
  == qsum (claims df).
Proof.
  unfold claims, rows_of.
  induction df as [| r df IH]; [reflexivity |].
  simpl. destruct (Risk_Category r); simpl; lra.
Qed.

Lemma claims_rows_of_cents (c : RiskCategory) (df : list PolicyRow) :
  Forall (fun r => whole_cents (Previous_Claims (policy r))) df ->
  Forall whole_cents (claims (rows_of c df)).
Proof.
  intro H. unfold claims, rows_of. rewrite Forall_map.
  now apply filter_subset_Forall.
Qed.

(** The 'Actual Claims Exposure' cell of a group whose claims are whole
    hundredths. *)
Lemma exposure_cents (c : RiskCategory) (rows : list PolicyRow) :
  Forall whole_cents (claims rows) ->
  exists e, Actual_Claims_Exposure (reserve_row (c, rows)) = Fin e /\
            e == qsum (claims rows) * inject_Z 1000.
Proof.
  intro H.
  assert (E : Actual_Claims_Exposure (reserve_row (c, rows))
              = (round2 (nansum (claims rows)) * lit 1000)%f64) by reflexivity.
  rewrite E.
  destruct (nansum_finite (claims rows)) as [s [-> Hs]].
  { revert H. apply Forall_impl. exact whole_cents_finite. }
  destruct (qsum_cents _ H) as [z Hz].
  destruct (round2_cents s z) as [q' [-> Hq']]; [now rewrite Hs |].
  eexists. split; [reflexivity |]. now rewrite Hq', Hs.
Qed.

Lemma whole_number_cents (a : float64) : whole_number a -> whole_cents a.
Proof.
  destruct a as [| | | q]; simpl; auto. intros [z Hz].
  exists (z * 100)%Z. rewrite Hz. unfold Qeq, inject_Z. simpl. lia.
Qed.

(** X19.  When every claims cell is missing or a whole number, the 'Total
    Actual Exposure' of the capital adequacy summary equals the 'Actual Claims
    Exposure' of the 'Base Case' stress result: the two reports agree on the
    portfolio's claims exposure although one sums per-category totals and the
    other uses the total of the frame. *)
Theorem exposure_agrees_with_base_case (df : list PolicyRow) :
  Forall (fun r => whole_number (Previous_Claims (policy r))) df ->
  exists base_case rest,
    perform_stress_testing df = base_case :: rest /\
    Scenario_Name base_case = "Base Case"%string /\
    (CR_Total_Actual_Exposure
       (calculate_capital_adequacy_ratio (calculate_reserve_requirements df))
     == Stress_Claims_Exposure base_case)%f64.
Proof.
  intro Hw.
  assert (H : Forall (fun r => whole_cents (Previous_Claims (policy r))) df).
  { revert Hw. apply Forall_impl. intro r. apply whole_number_cents. }
  clear Hw.
  eexists. eexists. split; [reflexivity |]. split; [reflexivity |].
  set (g := fun rows : list PolicyRow =>
              qval (Actual_Claims_Exposure (reserve_row (Low, rows)))).
  assert (Hg : forall c rows,
             qval (Actual_Claims_Exposure (reserve_row (c, rows))) = g rows)
    by reflexivity.
  assert (Hfin : Forall finite_or_missing
                   (map Actual_Claims_Exposure (calculate_reserve_requirements df))).
  { rewrite Forall_map. apply Forall_forall. intros r Hr.
    destruct (reserve_rows_In df r Hr) as [c [rows [-> Hin]]].
    apply groupby_risk_In in Hin. destruct Hin as [-> _].
    destruct (exposure_cents c _ (claims_rows_of_cents c df H)) as [e [He _]].
    unfold rows_of in He. rewrite He. exact I. }
  destruct (nansum_finite _ Hfin) as [s [Es Hs]].
  destruct (nansum_finite (claims df)) as [t [Et Ht]].
  { unfold claims. rewrite Forall_map. revert H. apply Forall_impl.
    intros r. apply whole_cents_finite. }
  assert (E1 : CR_Total_Actual_Exposure
                 (calculate_capital_adequacy_ratio (calculate_reserve_requirements df))
               = Fin s) by exact Es.
  assert (E2 : Stress_Claims_Exposure
                 (stress_scenario (base_metrics df)
                    (mkScenario "Base Case" (dec 10 10) (dec 10 10)
                                "Current baseline scenario"))
               = Fin (t * (10 # 10) * inject_Z 1000)).
  { cbv beta iota zeta delta
      [stress_scenario base_metrics Stress_Claims_Exposure total_claims
       claims_multiplier].
    now rewrite Et. }
  rewrite E1, E2. simpl feq.
  rewrite Hs, Ht, qsum_map_qval.
  unfold calculate_reserve_requirements. rewrite !map_map.
  rewrite (map_ext _ (fun grp => g (snd grp)))
    by (intros [c rows]; apply Hg).
  rewrite (group_sum_Q g) by reflexivity.
  rewrite <- claims_partition.
  assert (Hc : forall c, g (rows_of c df)
                         == qsum (claims (rows_of c df)) * inject_Z 1000).
  { intro c. rewrite <- (Hg c).
    destruct (exposure_cents c _ (claims_rows_of_cents c df H)) as [e [-> He]].
    exact He. }
  rewrite !Hc. unfold inject_Z. lra.
Qed.

Lemma exposure_agrees_with_base_case_witness :
  exists base_case rest,
    perform_stress_testing (load_and_prepare_data mixed_table) = base_case :: rest /\
    Scenario_Name base_case = "Base Case"%string /\
    (CR_Total_Actual_Exposure
       (calculate_capital_adequacy_ratio
          (calculate_reserve_requirements (load_and_prepare_data mixed_table)))
     == Stress_Claims_Exposure base_case)%f64.
Proof.
  apply (exposure_agrees_with_base_case (load_and_prepare_data mixed_table)).
  unfold mixed_table. simpl.
  repeat constructor; first [exists 1%Z; reflexivity | exists 3%Z; reflexivity].
Defined.

End ExposureAgreement.

(** * Further properties: policy counts and claims history *)

Section Coverage.

Import ReserveMonitoring.

(** X20.  The 'Policy Count' cells sum to the number of rows whose premium is
    present, which is at most the number of rows: a policy with a missing
    premium is counted in no category. *)
Theorem policy_counts_skip_missing_premiums (df : list PolicyRow) :
  zsum (map Policy_Count (calculate_reserve_requirements df))
  = Z.of_nat (List.length
                (filter (fun r => notnan (Premium_Amount (policy r))) df)) /\
  (zsum (map Policy_Count (calculate_reserve_requirements df))
   <= Z.of_nat (List.length df))%Z.
Proof.
  rewrite policy_counts_sum. unfold count, premiums.
  assert (E : List.length (filter notnan (map (fun r => Premium_Amount (policy r)) df))
              = List.length (filter (fun r => notnan (Premium_Amount (policy r))) df)).
  { induction df as [| r df IH]; [reflexivity |].
    simpl. destruct (notnan (Premium_Amount (policy r))); simpl; now rewrite IH. }
  rewrite E. split; [reflexivity |].
  apply Nat2Z.inj_le. apply filter_length_le.
Qed.

End Coverage.

Section ClaimsHistory.

Import ReserveMonitoring.
Local Open Scope Z_scope.

(** X22.  A policy with more than two previous claims is never in the Low
    category, and a smoker with more than two previous claims is in the High
    or the Very High category. *)
Theorem many_claims_never_low (row : Row) :
  fgt (Previous_Claims row) (lit 2) = true ->
  _categorize_risk (score_row row) <> Low /\
  (str_eq (Smoking_Status row) "Yes" = true ->
   2 <= rank (_categorize_risk (score_row row))).
Proof.
  intro H.
  pose proof (points_bounds row) as [Ha [_ [Hh [Hc [Hs He]]]]].
  assert (Hs3 : 3 <= score_row row).
  { rewrite score_row_spec. unfold Spec.risk_score.
    rewrite <- (claims_points_source (Previous_Claims row)), H. lia. }
  split.
  - unfold _categorize_risk. destruct (Z.leb_spec (score_row row) 2); [lia |].
    destruct (score_row row <=? 4); [discriminate |].
    destruct (score_row row <=? 6); discriminate.
  - intro Hsm.
    assert (Hs5 : 5 <= score_row row).
    { rewrite score_row_spec. unfold Spec.risk_score.
      rewrite <- (claims_points_source (Previous_Claims row)), H.
      unfold Spec.smoking_points at 1. rewrite Hsm. lia. }
    unfold _categorize_risk.
    destruct (Z.leb_spec (score_row row) 2); [lia |].
    destruct (Z.leb_spec (score_row row) 4); [lia |].
    destruct (score_row row <=? 6); simpl; lia.
Qed.

Lemma many_claims_never_low_witness :
  _categorize_risk (score_row riskiest_row) <> Low /\
  (str_eq (Smoking_Status riskiest_row) "Yes" = true ->
   2 <= rank (_categorize_risk (score_row riskiest_row))).
Proof.
  apply (many_claims_never_low riskiest_row). reflexivity.
Defined.

(** X23.  The largest risk score is 12: no record scores more, and a record
    that collects every contribution (2 for age, 3 for claims, 2 for health,
    2 for credit, 2 for smoking, 1 for exercise) scores exactly 12. *)
Theorem risk_score_maximum_is_12 :
  (forall row, score_row row <= 12) /\
  Spec.age_points (Age riskiest_row) = 2 /\
  Spec.claims_points (Previous_Claims riskiest_row) = 3 /\
  Spec.health_points (Health_Score riskiest_row) = 2 /\
  Spec.credit_points (Credit_Score riskiest_row) = 2 /\
  Spec.smoking_points (Smoking_Status riskiest_row) = 2 /\
  Spec.exercise_points (Exercise_Frequency riskiest_row) = 1 /\
  score_row riskiest_row = 12 /\
  _categorize_risk (score_row riskiest_row) = Very_High.
Proof.
  split; [intro row; pose proof (score_row_bounds row); lia |].
  repeat split.
Qed.

End ClaimsHistory.
